(** * Product plugins of the theme layer (shuup/xtheme/plugins/products.py)

    A shallow embedding of the three product plugins and of the
    category-products configuration form, with the properties of their
    context-building operations.

    Python objects are values of a small universe, dictionaries are finite
    maps keyed by strings, a raised exception is the [Raise] outcome of a
    computation, and every call of a helper that lives outside the file is
    recorded in a trace next to the outcome. *)

From stdpp Require Import gmap strings list.
From Stdlib Require Import ZArith.

Local Open Scope string_scope.
Local Open Scope Z_scope.

(** ** Values *)

(** Modelled from the spec: the cross-sell relation-type enumeration
    (shuup.core.models.ProductCrossSellType) is declared outside the file,
    which names only its member RELATED. *)
Inductive ProductCrossSellType : Type :=
| RECOMMENDED
| RELATED
| COMPUTED
| BOUGHT_WITH.

(** A row of the category table: primary key, soft-deletion state and the
    shops the category is visible in. *)
Record Category : Type := mkCategory {
  cat_id : Z;
  cat_deleted : bool;
  cat_shops : list Z
}.

#[warnings="-register-all"]
Inductive value : Type :=
| VNone
| VBool (b : bool)
| VInt (z : Z)
| VStr (s : string)
| VRelationType (t : ProductCrossSellType)
| VCategory (c : Category)
| VProduct (pk : Z)
| VRequest (shop : Z)
| VList (l : list value).

Abbreviation dict := (gmap string value).

(** Python truth value: [if relation_type:], [if category_id], [if category:]. *)
Definition truthy (v : value) : bool :=
  match v with
  | VNone => false
  | VBool b => b
  | VInt z => negb (z =? 0)
  | VStr s => negb (String.eqb s "")
  | VList l => match l with [] => false | _ :: _ => true end
  | VRelationType _ | VCategory _ | VProduct _ | VRequest _ => true
  end.

(** [v == "literal"]: among the values of the universe only the same str
    compares equal to a str. *)
Definition py_eq_str (v : value) (s : string) : bool :=
  match v with
  | VStr s' => String.eqb s' s
  | _ => false
  end.

(** [d.get(key, default)]: the stored value when the key is present (whatever
    the value, None included), the default otherwise. *)
Definition dict_get (d : dict) (key : string) (dflt : value) : value :=
  default dflt (d !! key).

(** [hasattr(v, "pk")] and [v.pk]: model instances carry a primary key. *)
Definition getattr_pk (v : value) : option value :=
  match v with
  | VCategory c => Some (VInt (cat_id c))
  | VProduct pk => Some (VInt pk)
  | _ => None
  end.

(** ** Exceptions and outcomes *)

Inductive exn : Type :=
| LookupError
| KeyError (key : string)
| IndexError
| AttributeError
| TypeError
| ValueError.

(** [except LookupError] also catches its subclasses KeyError and IndexError. *)
Definition is_LookupError (e : exn) : bool :=
  match e with
  | LookupError | KeyError _ | IndexError => true
  | AttributeError | TypeError | ValueError => false
  end.

Inductive result (A : Type) : Type :=
| Ok (a : A)
| Raise (e : exn).
Arguments Ok {A} a.
Arguments Raise {A} e.

(** ** Calls that leave the file *)

Inductive call : Type :=
| Call_get_newest_products (context : dict) (count orderable_only sale_items_only : value)
| Call_get_best_selling_products (context : dict) (count orderable_only sale_items_only : value)
| Call_get_random_products (context : dict) (count orderable_only sale_items_only : value)
| Call_get_products_for_categories
    (context : dict) (categories : list Category)
    (n_products orderable_only sale_items_only : value)
| Call_map_relation_type (relation_type : value)
| Call_Category_filter_id (id : value).

(** The count argument of a call of a product-query helper. *)
Definition call_count (c : call) : option value :=
  match c with
  | Call_get_newest_products _ n _ _
  | Call_get_best_selling_products _ n _ _
  | Call_get_random_products _ n _ _
  | Call_get_products_for_categories _ _ n _ _ => Some n
  | Call_map_relation_type _ | Call_Category_filter_id _ => None
  end.

Definition is_product_query (c : call) : bool :=
  match call_count c with Some _ => true | None => false end.

(** The helpers imported by the file, taken as they are: the product
    queries and the relation-type mapping may return or raise, and
    [get_translated_value] is the base plugin's accessor of a possibly
    translated configuration entry. *)
Record Externals : Type := mkExternals {
  get_newest_products : dict -> value -> value -> value -> result value;
  get_best_selling_products : dict -> value -> value -> value -> result value;
  get_random_products : dict -> value -> value -> value -> result value;
  get_products_for_categories :
    dict -> list Category -> value -> value -> value -> result value;
  map_relation_type : value -> result value;
  get_translated_value : dict -> string -> value
}.

(** ** Computations: a trace of outside calls and an outcome *)

Definition M (A : Type) : Type := (list call * result A)%type.

Definition ret {A} (a : A) : M A := ([], Ok a).
Definition raise {A} (e : exn) : M A := ([], Raise e).
Definition emit {A} (c : call) (r : result A) : M A := ([c], r).

Definition bind {A B} (m : M A) (k : A -> M B) : M B :=
  match m with
  | (t, Ok a) => let '(t', r) := k a in ((t ++ t')%list, r)
  | (t, Raise e) => (t, Raise e)
  end.

(** [try: m except LookupError: handler] *)
Definition try_except_LookupError {A} (m : M A) (handler : A) : M A :=
  match m with
  | (t, Raise e) => if is_LookupError e then (t, Ok handler) else (t, Raise e)
  | ok => ok
  end.

Notation "'do' x <- m ; k" := (bind m (fun x => k))
  (at level 10, x name, m at level 100, k at level 200).

Definition trace {A} (m : M A) : list call := fst m.
Definition outcome {A} (m : M A) : result A := snd m.

(** [d[key]] *)
Definition subscript (d : dict) (key : string) : M value :=
  match d !! key with
  | Some v => ret v
  | None => raise (KeyError key)
  end.

(** ** HighlightType *)

Inductive HighlightType : Type := NEWEST | BEST_SELLING | RANDOM.

Definition HighlightType_value (t : HighlightType) : string :=
  match t with
  | NEWEST => "newest"
  | BEST_SELLING => "best_selling"
  | RANDOM => "random"
  end.

(** ** Form fields, as the plugins declare them *)

Inductive Field : Type :=
| TranslatableField (required : bool) (initial : value)
| ChoiceField (choices : list string) (initial : value)
| IntegerField (min_value : option Z) (required : bool) (initial : value)
| BooleanField (required : bool) (initial : value)
| EnumField
| XThemeModelChoiceField (queryset : list Category) (required : bool) (initial : value).

(** An entry of a plugin's [fields] list: a (name, field) tuple or a bare name. *)
Inductive FieldEntry : Type :=
| FTuple (name : string) (field : Field)
| FName (name : string).

(** ** Dictionaries that are shared by reference *)

Abbreviation loc := positive.
Abbreviation store := (gmap loc dict).

(** A reference always denotes an allocated dictionary. *)
Definition deref (st : store) (l : loc) : dict := default ∅ (st !! l).

(** [d[key] = v] on the dictionary behind the reference [l]. *)
Definition setitem (st : store) (l : loc) (key : string) (v : value) : store :=
  <[l := <[key := v]> (deref st l)]> st.

(** A plugin instance: [self.config] refers to a dictionary. *)
Record Plugin : Type := mkPlugin { config : loc }.

(** Modelled from the spec: the base constructor (shuup.xtheme.Plugin.__init__)
    is outside the file; it keeps the mapping it is given as [self.config]. *)
Definition Plugin_init (config : loc) : Plugin := mkPlugin config.

Section Plugins.

Variable ext : Externals.

(** ** ProductHighlightPlugin *)

Definition ProductHighlightPlugin_fields : list FieldEntry :=
  [ FTuple "title" (TranslatableField false (VStr ""));
    FTuple "type" (ChoiceField (map HighlightType_value [NEWEST; BEST_SELLING; RANDOM])
                               (VStr (HighlightType_value NEWEST)));
    FTuple "count" (IntegerField (Some 1) true (VInt 4));
    FTuple "sale_items_only" (BooleanField false (VBool false));
    FTuple "orderable_only" (BooleanField false (VBool true)) ].

Definition ProductHighlightPlugin_get_context_data (config context : dict) : M dict :=
  let highlight_type := dict_get config "type" (VStr (HighlightType_value NEWEST)) in
  let count := dict_get config "count" (VInt 4) in
  let orderable_only := dict_get config "orderable_only" (VBool true) in
  let sale_items_only := dict_get config "sale_items_only" (VBool false) in
  do products <-
    (if py_eq_str highlight_type (HighlightType_value NEWEST) then
       emit (Call_get_newest_products context count orderable_only sale_items_only)
            (get_newest_products ext context count orderable_only sale_items_only)
     else if py_eq_str highlight_type (HighlightType_value BEST_SELLING) then
       emit (Call_get_best_selling_products context count orderable_only sale_items_only)
            (get_best_selling_products ext context count orderable_only sale_items_only)
     else if py_eq_str highlight_type (HighlightType_value RANDOM) then
       emit (Call_get_random_products context count orderable_only sale_items_only)
            (get_random_products ext context count orderable_only sale_items_only)
     else ret (VList []));
  do request <- subscript context "request";
  ret (<["request" := request]>
       (<["title" := get_translated_value ext config "title"]>
       (<["products" := products]> ∅))).

(** ** ProductCrossSellsPlugin *)

Definition ProductCrossSellsPlugin_required_context_variables : list string :=
  ["product"].

Definition ProductCrossSellsPlugin_fields : list FieldEntry :=
  [ FTuple "title" (TranslatableField false (VStr ""));
    FTuple "type" EnumField;
    FTuple "count" (IntegerField (Some 1) true (VInt 4));
    FTuple "orderable_only" (BooleanField false (VBool true)) ].

(** [try: type = map_relation_type(relation_type)
     except LookupError: type = ProductCrossSellType.RELATED] *)
Definition resolve_relation_type (relation_type : value) : M value :=
  try_except_LookupError
    (emit (Call_map_relation_type relation_type) (map_relation_type ext relation_type))
    (VRelationType RELATED).

(** The constructor receives a reference to the caller's dictionary and
    writes into that dictionary: the store after the call is what the caller
    sees. When the constructor raises nothing has been written yet, so the
    store is the one before the call. *)
Definition ProductCrossSellsPlugin_init (st : store) (config : loc)
  : M (store * Plugin) :=
  let relation_type := dict_get (deref st config) "type" VNone in
  do st' <-
    (if truthy relation_type then
       do type <- resolve_relation_type relation_type;
       ret (setitem st config "type" type)
     else ret st);
  ret (st', Plugin_init config).

Definition ProductCrossSellsPlugin_get_context_data (config context : dict) : M dict :=
  let count := dict_get config "count" (VInt 4) in
  let product := dict_get context "product" VNone in
  let orderable_only := dict_get config "orderable_only" (VBool true) in
  let relation_type := dict_get config "type" VNone in
  do type <- resolve_relation_type relation_type;
  do request <- subscript context "request";
  ret (<["request" := request]>
       (<["title" := get_translated_value ext config "title"]>
       (<["product" := product]>
       (<["type" := type]>
       (<["count" := count]>
       (<["orderable_only" := orderable_only]> ∅)))))).

(** ** ProductsFromCategoryPlugin *)

(** The category table at the time of the call. *)
Variable Category_objects : list Category.

(** [Category.objects.filter(id=v)]: the default manager, every row of the
    table with that primary key, deleted or not and of whatever shop. Stored
    configurations hold the primary key the form saved, an integer (a bool is
    an integer in Python). Identifiers of another kind are outside the
    model, which lets the lookup reject them; no statement below relies on
    that branch. *)
Definition Category_objects_filter_id (v : value) : M (list Category) :=
  emit (Call_Category_filter_id v)
    match v with
    | VInt z => Ok (List.filter (fun c => cat_id c =? z) Category_objects)
    | VBool b => Ok (List.filter (fun c => cat_id c =? Z.b2z b) Category_objects)
    | VStr _ => Raise ValueError
    | _ => Raise TypeError
    end.

Definition ProductsFromCategoryPlugin_fields : list FieldEntry :=
  [ FTuple "title" (TranslatableField false (VStr ""));
    FTuple "count" (IntegerField (Some 1) true (VInt 4));
    FName "category";
    FTuple "sale_items_only" (BooleanField false (VBool false));
    FTuple "orderable_only" (BooleanField false (VBool true)) ].

Definition ProductsFromCategoryPlugin_get_context_data (config context : dict) : M dict :=
  let products := VList [] in
  let category_id := dict_get config "category" VNone in
  let count := dict_get config "count" VNone in
  let orderable_only := dict_get config "orderable_only" (VBool true) in
  let sale_items_only := dict_get config "sale_items_only" (VBool false) in
  do category <-
    (if truthy category_id then
       do qs <- Category_objects_filter_id category_id;
       ret (head qs)
     else ret None);
  do products <-
    match category with
    | Some c =>
        emit (Call_get_products_for_categories
                context [c] count orderable_only sale_items_only)
             (get_products_for_categories ext
                context [c] count orderable_only sale_items_only)
    | None => ret products
    end;
  do request <- subscript context "request";
  ret (<["request" := request]>
       (<["title" := get_translated_value ext config "title"]>
       (<["products" := products]> ∅))).

End Plugins.

(** ** Configuration forms *)

Definition Field_required (f : Field) : bool :=
  match f with
  | TranslatableField r _ | IntegerField _ r _ | BooleanField r _
  | XThemeModelChoiceField _ r _ => r
  | ChoiceField _ _ | EnumField => true
  end.

Definition Field_initial (f : Field) : value :=
  match f with
  | TranslatableField _ i | ChoiceField _ i | IntegerField _ _ i
  | BooleanField _ i | XThemeModelChoiceField _ _ i => i
  | EnumField => VNone
  end.

(** [value.initial = v] *)
Definition with_initial (f : Field) (v : value) : Field :=
  match f with
  | TranslatableField r _ => TranslatableField r v
  | ChoiceField c _ => ChoiceField c v
  | IntegerField m r _ => IntegerField m r v
  | BooleanField r _ => BooleanField r v
  | XThemeModelChoiceField q r _ => XThemeModelChoiceField q r v
  | EnumField => EnumField
  end.

(** [self.fields[name] = value] on the ordered field dictionary of a form. *)
Fixpoint fields_setitem (fields : list (string * Field)) (name : string) (f : Field)
  : list (string * Field) :=
  match fields with
  | [] => [(name, f)]
  | (n, g) :: rest =>
      if String.eqb n name then (n, f) :: rest
      else (n, g) :: fields_setitem rest name f
  end.

(** The loop of [populate]: every (name, field) tuple of the plugin's field
    list is declared on the form, its initial value taken from the stored
    configuration; bare names are skipped. *)
Fixpoint populate_loop (plugin_fields : list FieldEntry) (plugin_config : dict)
    (fields : list (string * Field)) : list (string * Field) :=
  match plugin_fields with
  | [] => fields
  | FTuple name value :: rest =>
      populate_loop rest plugin_config
        (fields_setitem fields name
           (with_initial value (dict_get plugin_config name (Field_initial value))))
  | FName _ :: rest => populate_loop rest plugin_config fields
  end.

(** Modelled from the spec: the manager method
    [Category.objects.all_except_deleted(shop=...)] is outside the file; it
    yields the categories that are not deleted and belong to the shop. *)
Definition all_except_deleted (table : list Category) (shop : Z) : list Category :=
  List.filter
    (fun c => negb (cat_deleted c) && existsb (Z.eqb shop) (cat_shops c))
    table.

Definition ProductsFromCategoryForm_populate
    (table : list Category) (request_shop : Z)
    (plugin_fields : list FieldEntry) (plugin_config : dict)
  : list (string * Field) :=
  fields_setitem (populate_loop plugin_fields plugin_config [])
    "category"
    (XThemeModelChoiceField (all_except_deleted table request_shop) false
       (dict_get plugin_config "category" VNone)).

(** [cleaned_data["category"] = carousel.pk if hasattr(carousel, "pk") else None]
    on the dictionary the base [clean] returned. *)
Definition ProductsFromCategoryForm_clean (cleaned_data : dict) : dict :=
  let carousel := dict_get cleaned_data "category" VNone in
  <["category" := match getattr_pk carousel with
                  | Some pk => pk
                  | None => VNone
                  end]> cleaned_data.

(** Modelled from the spec: the generic plugin form
    (shuup.xtheme.plugins.forms.GenericPluginForm) is outside the file; it
    declares the fields of the plugin's field list. *)
Definition GenericPluginForm_populate
    (plugin_fields : list FieldEntry) (plugin_config : dict)
  : list (string * Field) :=
  populate_loop plugin_fields plugin_config [].

Section Validation.

(** Conversion of submitted text to an integer, and the conversion of the
    fields whose rules the plugins do not set. *)
Variable int_of_string : string -> option Z.
Variable other_to_python : Field -> value -> option value.

Definition is_empty_value (v : value) : bool :=
  match v with
  | VNone | VStr "" | VList [] => true
  | _ => false
  end.

(** Modelled from the spec: field validation belongs to the form framework,
    outside the file. A field converts the submitted value ([None] when it
    cannot), refuses an empty value when it is required, and an integer
    field refuses a number below its declared minimum. *)
Definition Field_to_python (f : Field) (raw : value) : option value :=
  match f with
  | IntegerField _ _ _ =>
      if is_empty_value raw then Some VNone
      else match raw with
           | VInt z => Some (VInt z)
           | VStr s => VInt <$> int_of_string s
           | _ => None
           end
  | XThemeModelChoiceField queryset _ _ =>
      if is_empty_value raw then Some VNone
      else
        let key := match raw with
                   | VInt z => Some z
                   | VStr s => int_of_string s
                   | _ => None
                   end in
        match key with
        | Some z => VCategory <$> List.find (fun c => cat_id c =? z) queryset
        | None => None
        end
  | _ => other_to_python f raw
  end.

Definition run_validators (f : Field) (v : value) : bool :=
  match f, v with
  | IntegerField (Some m) _ _, VInt z => m <=? z
  | _, _ => true
  end.

Definition Field_clean (f : Field) (raw : value) : option value :=
  match Field_to_python f raw with
  | None => None
  | Some v =>
      if is_empty_value v then (if Field_required f then None else Some v)
      else if run_validators f v then Some v else None
  end.

(** Every declared field is cleaned; the form is accepted when none fails. *)
Fixpoint clean_fields (fields : list (string * Field)) (data : dict) : option dict :=
  match fields with
  | [] => Some ∅
  | (name, f) :: rest =>
      match Field_clean f (dict_get data name VNone), clean_fields rest data with
      | Some v, Some cleaned => Some (<[name := v]> cleaned)
      | _, _ => None
      end
  end.

(** The configuration a form stores for the submitted data, [None] when the
    form rejects them. *)
Definition GenericPluginForm_config
    (plugin_fields : list FieldEntry) (plugin_config data : dict) : option dict :=
  clean_fields (GenericPluginForm_populate plugin_fields plugin_config) data.

Definition ProductsFromCategoryForm_config
    (table : list Category) (request_shop : Z)
    (plugin_fields : list FieldEntry) (plugin_config data : dict) : option dict :=
  ProductsFromCategoryForm_clean <$>
    clean_fields
      (ProductsFromCategoryForm_populate table request_shop plugin_fields plugin_config)
      data.

End Validation.

(** ** The category lookup as the specification words it *)

(** The render-time lookup of the specification text: the category with the
    stored identifier among the categories that are not deleted and that
    belong to the active shop. Kept apart from the definition taken from the
    code, to be compared with it. *)
Definition spec_load_category
    (table : list Category) (active_shop : Z) (category_id : value)
  : option Category :=
  match category_id with
  | VInt z => List.find (fun c => cat_id c =? z) (all_except_deleted table active_shop)
  | _ => None
  end.

Definition spec_ProductsFromCategoryPlugin_get_context_data
    (ext : Externals) (table : list Category) (active_shop : Z)
    (config context : dict) : M dict :=
  let count := dict_get config "count" VNone in
  let orderable_only := dict_get config "orderable_only" (VBool true) in
  let sale_items_only := dict_get config "sale_items_only" (VBool false) in
  do products <-
    match spec_load_category table active_shop (dict_get config "category" VNone) with
    | Some c =>
        emit (Call_get_products_for_categories
                context [c] count orderable_only sale_items_only)
             (get_products_for_categories ext
                context [c] count orderable_only sale_items_only)
    | None => ret (VList [])
    end;
  do request <- subscript context "request";
  ret (<["request" := request]>
       (<["title" := get_translated_value ext config "title"]>
       (<["products" := products]> ∅))).

(** ** Predicates of the statements *)

(** A rendering context, as the theme renderer hands it to a plugin, carries
    the request being served. *)
Definition rendering_context (context : dict) : Prop :=
  is_Some (context !! "request").

(** The relation-type mapping signals failure by a lookup error only. *)
Definition raises_only_LookupError (ext : Externals) : Prop :=
  forall v e, map_relation_type ext v = Raise e -> is_LookupError e = true.

(** No row of the table has the primary key [z]. *)
Definition no_category_with_id (table : list Category) (z : Z) : bool :=
  forallb (fun c => negb (cat_id c =? z)) table.

(** The stored category identifier matches no existing category: it is
    missing, null or otherwise false, or an integer that is no primary key
    of the table. *)
Definition matches_no_category (table : list Category) (config : dict) : bool :=
  match config !! "category" with
  | None => true
  | Some (VInt z) => no_category_with_id table z
  | Some v => negb (truthy v)
  end.

(** The "products" entry of a returned context. *)
Definition products_of (r : result dict) : option value :=
  match r with
  | Ok m => m !! "products"
  | Raise _ => None
  end.

(** The context the highlight and category plugins build around a product
    list. *)
Definition products_context (ext : Externals) (config : dict)
    (request products : value) : dict :=
  <["request" := request]>
  (<["title" := get_translated_value ext config "title"]>
  (<["products" := products]> ∅)).

(** The query the highlight plugin makes for a highlight type. *)
Definition highlight_call (t : HighlightType) (context : dict)
    (count orderable_only sale_items_only : value) : call :=
  match t with
  | NEWEST => Call_get_newest_products context count orderable_only sale_items_only
  | BEST_SELLING =>
      Call_get_best_selling_products context count orderable_only sale_items_only
  | RANDOM => Call_get_random_products context count orderable_only sale_items_only
  end.

(** Every product query of a trace was given [count] as its count. *)
Definition queries_with_count (count : value) (t : list call) : Prop :=
  Forall (fun c => forall n, call_count c = Some n -> n = count) t.

(** ** A sample environment *)

Definition sample_map_relation_type (v : value) : result value :=
  match v with
  | VRelationType t => Ok (VRelationType t)
  | VStr "recommended" => Ok (VRelationType RECOMMENDED)
  | VStr "related" => Ok (VRelationType RELATED)
  | VStr "computed" => Ok (VRelationType COMPUTED)
  | VStr "bought_with" => Ok (VRelationType BOUGHT_WITH)
  | _ => Raise LookupError
  end.

(** The product queries of the sample answer one product for a count of
    one and two products otherwise. *)
Definition sample_products (count : value) : result value :=
  match count with
  | VInt 1 => Ok (VList [VProduct 11])
  | _ => Ok (VList [VProduct 11; VProduct 12])
  end.

Definition sample_ext : Externals :=
  {| get_newest_products := fun _ n _ _ => sample_products n;
     get_best_selling_products := fun _ n _ _ => sample_products n;
     get_random_products := fun _ n _ _ => sample_products n;
     get_products_for_categories := fun _ _ n _ _ => sample_products n;
     map_relation_type := sample_map_relation_type;
     get_translated_value := fun config key => dict_get config key VNone |}.

Definition sample_table : list Category :=
  [ mkCategory 3 false [1]; mkCategory 7 true [1]; mkCategory 9 false [2] ].

Definition sample_context : dict :=
  <["request" := VRequest 1]> ∅.

Definition sample_int_of_string (s : string) : option Z :=
  match s with
  | "0" => Some 0
  | "1" => Some 1
  | "4" => Some 4
  | "12" => Some 12
  | _ => None
  end.

Definition sample_other_to_python (f : Field) (raw : value) : option value :=
  match f with
  | BooleanField _ _ => Some (VBool (truthy raw))
  | _ => Some raw
  end.

(** ** Further notions of the statements *)

(** The helper the highlight plugin asks for a highlight type. *)
Definition highlight_helper (ext : Externals) (t : HighlightType)
  : dict -> value -> value -> value -> result value :=
  match t with
  | NEWEST => get_newest_products ext
  | BEST_SELLING => get_best_selling_products ext
  | RANDOM => get_random_products ext
  end.

(** The product queries among the calls of a trace. *)
Definition product_queries (t : list call) : list call :=
  List.filter is_product_query t.

(** [fields.get(name)] on the ordered field dictionary of a form. *)
Fixpoint fields_lookup (fields : list (string * Field)) (name : string)
  : option Field :=
  match fields with
  | [] => None
  | (n, f) :: rest => if String.eqb n name then Some f else fields_lookup rest name
  end.

(** The names of the (name, field) tuples of a plugin's field list. *)
Fixpoint tuple_names (plugin_fields : list FieldEntry) : list string :=
  match plugin_fields with
  | [] => []
  | FTuple name _ :: rest => name :: tuple_names rest
  | FName _ :: rest => tuple_names rest
  end.


(** A value that can be persisted with the configuration as a category
    identifier: None or an integer. *)
Definition is_stored_identifier (v : value) : bool :=
  match v with
  | VNone | VInt _ => true
  | _ => false
  end.

(** A sample environment whose mapping fails with an AttributeError on a
    value that is neither a string nor a relation type. *)
Definition strict_map_relation_type (v : value) : result value :=
  match v with
  | VStr _ | VRelationType _ => sample_map_relation_type v
  | _ => Raise AttributeError
  end.

Definition strict_ext : Externals :=
  {| get_newest_products := get_newest_products sample_ext;
     get_best_selling_products := get_best_selling_products sample_ext;
     get_random_products := get_random_products sample_ext;
     get_products_for_categories := get_products_for_categories sample_ext;
     map_relation_type := strict_map_relation_type;
     get_translated_value := get_translated_value sample_ext |}.

(** * Properties *)

(** ** Dictionaries and computations *)

Lemma dict_get_Some (d : dict) key dflt v :
  d !! key = Some v -> dict_get d key dflt = v.
Proof. intros H. unfold dict_get. by rewrite H. Qed.

Lemma dict_get_None (d : dict) key dflt :
  d !! key = None -> dict_get d key dflt = dflt.
Proof. intros H. unfold dict_get. by rewrite H. Qed.

Lemma subscript_Some (d : dict) key v :
  d !! key = Some v -> subscript d key = ([], Ok v).
Proof. intros H. unfold subscript. by rewrite H. Qed.

Lemma subscript_None (d : dict) key :
  d !! key = None -> subscript d key = ([], Raise (KeyError key)).
Proof. intros H. unfold subscript. by rewrite H. Qed.

Lemma py_eq_str_true v s : py_eq_str v s = true <-> v = VStr s.
Proof.
  destruct v; simpl; try (split; [discriminate | congruence]).
  rewrite String.eqb_eq. split; congruence.
Qed.

Lemma py_eq_str_false v s : v <> VStr s -> py_eq_str v s = false.
Proof.
  intros H. destruct (py_eq_str v s) eqn:E; [|done].
  by apply py_eq_str_true in E.
Qed.

(** ** ProductHighlightPlugin *)

(** The branch of the highlight plugin, by the stored type. *)
Lemma highlight_unknown_type ext config context v :
  config !! "type" = Some v ->
  (forall t, v <> VStr (HighlightType_value t)) ->
  ProductHighlightPlugin_get_context_data ext config context =
    (do request <- subscript context "request";
     ret (<["request" := request]>
          (<["title" := get_translated_value ext config "title"]>
          (<["products" := VList []]> ∅)))).
Proof.
  intros Hty Hne. unfold ProductHighlightPlugin_get_context_data.
  rewrite (dict_get_Some _ _ _ _ Hty).
  rewrite !py_eq_str_false by apply Hne.
  unfold bind, ret. simpl. by destruct (subscript context "request") as [t [a|e]].
Qed.

(** C3: when the stored "type" is none of the three highlight codes, the
    highlight plugin calls no helper, raises nothing on a rendering context
    and returns a context whose "products" entry is the empty list. *)
Theorem C3_highlight_unknown_type_empty ext (config context : dict) v :
  config !! "type" = Some v ->
  (forall t : HighlightType, v <> VStr (HighlightType_value t)) ->
  rendering_context context ->
  exists m,
    ProductHighlightPlugin_get_context_data ext config context = ([], Ok m)
    /\ m !! "products" = Some (VList []).
Proof.
  intros Hty Hne [request Hreq].
  rewrite (highlight_unknown_type _ _ _ _ Hty Hne), (subscript_Some _ _ _ Hreq).
  eexists. split; [reflexivity|]. by simplify_map_eq.
Qed.

Lemma C3_highlight_unknown_type_empty_witness :
  exists m,
    ProductHighlightPlugin_get_context_data sample_ext
      (<["type" := VStr "cheapest"]> (<["count" := VInt 4]> ∅)) sample_context
      = ([], Ok m)
    /\ m !! "products" = Some (VList []).
Proof.
  apply (C3_highlight_unknown_type_empty sample_ext _ sample_context (VStr "cheapest")).
  - reflexivity.
  - intros []; discriminate.
  - exists (VRequest 1). reflexivity.
Defined.

(** ** ProductCrossSellsPlugin *)

(** The three ways the resolution of a relation type can end. *)
Lemma resolve_relation_type_Ok ext v t :
  map_relation_type ext v = Ok t ->
  resolve_relation_type ext v = ([Call_map_relation_type v], Ok t).
Proof. intros H. unfold resolve_relation_type, emit. by rewrite H. Qed.

Lemma resolve_relation_type_caught ext v e :
  map_relation_type ext v = Raise e ->
  is_LookupError e = true ->
  resolve_relation_type ext v =
    ([Call_map_relation_type v], Ok (VRelationType RELATED)).
Proof.
  intros H He. unfold resolve_relation_type, emit, try_except_LookupError.
  by rewrite H, He.
Qed.

Lemma resolve_relation_type_propagated ext v e :
  map_relation_type ext v = Raise e ->
  is_LookupError e = false ->
  resolve_relation_type ext v = ([Call_map_relation_type v], Raise e).
Proof.
  intros H He. unfold resolve_relation_type, emit, try_except_LookupError.
  by rewrite H, He.
Qed.

(** Under the contract of the mapping helper the resolution always yields a
    type. *)
Lemma resolve_relation_type_total ext v :
  raises_only_LookupError ext ->
  exists t, resolve_relation_type ext v = ([Call_map_relation_type v], Ok t).
Proof.
  intros Hc. destruct (map_relation_type ext v) as [t|e] eqn:E.
  - exists t. by apply resolve_relation_type_Ok.
  - eexists. eapply resolve_relation_type_caught; [done|]. by eapply Hc.
Qed.

(** What the cross-sell plugin returns once the type is resolved. *)
Lemma cross_sells_context_data ext (config context : dict) t request :
  resolve_relation_type ext (dict_get config "type" VNone)
    = ([Call_map_relation_type (dict_get config "type" VNone)], Ok t) ->
  context !! "request" = Some request ->
  ProductCrossSellsPlugin_get_context_data ext config context =
    ([Call_map_relation_type (dict_get config "type" VNone)],
     Ok (<["request" := request]>
         (<["title" := get_translated_value ext config "title"]>
         (<["product" := dict_get context "product" VNone]>
         (<["type" := t]>
         (<["count" := dict_get config "count" (VInt 4)]>
         (<["orderable_only" := dict_get config "orderable_only" (VBool true)]>
            ∅))))))).
Proof.
  intros Hres Hreq. unfold ProductCrossSellsPlugin_get_context_data.
  rewrite Hres, (subscript_Some _ _ _ Hreq). reflexivity.
Qed.

(** The two ways the cross-sell plugin can raise: a failure of the mapping
    that is no lookup error passes through, and a context without a request
    is refused by the subscript. *)
Lemma cross_sells_propagates ext (config context : dict) e :
  map_relation_type ext (dict_get config "type" VNone) = Raise e ->
  is_LookupError e = false ->
  outcome (ProductCrossSellsPlugin_get_context_data ext config context) = Raise e.
Proof.
  intros Hmap He. unfold ProductCrossSellsPlugin_get_context_data.
  by rewrite (resolve_relation_type_propagated _ _ _ Hmap He).
Qed.

Lemma cross_sells_without_request ext (config context : dict) :
  raises_only_LookupError ext ->
  context !! "request" = None ->
  outcome (ProductCrossSellsPlugin_get_context_data ext config context)
    = Raise (KeyError "request").
Proof.
  intros Hc Hreq. unfold ProductCrossSellsPlugin_get_context_data.
  destruct (resolve_relation_type_total ext (dict_get config "type" VNone) Hc)
    as [ty ->].
  by rewrite (subscript_None _ _ Hreq).
Qed.

(** C4: on a rendering context the cross-sell plugin returns a mapping whose
    keys are exactly request, title, product, type, count and
    orderable_only; it has no "products" entry and no product query was
    made. *)
Theorem C4_cross_sells_keys ext (config context : dict) :
  raises_only_LookupError ext ->
  rendering_context context ->
  exists t m,
    ProductCrossSellsPlugin_get_context_data ext config context = (t, Ok m)
    /\ dom m = ({["request"; "title"; "product"; "type"; "count"; "orderable_only"]}
                : gset string)
    /\ m !! "products" = None
    /\ Forall (fun c => is_product_query c = false) t.
Proof.
  intros Hc [request Hreq].
  destruct (resolve_relation_type_total ext (dict_get config "type" VNone) Hc)
    as [ty Hres].
  rewrite (cross_sells_context_data _ _ _ _ _ Hres Hreq).
  eexists _, _. split; [reflexivity|]. split; [|split].
  - rewrite !dom_insert_L, dom_empty_L. set_solver.
  - by simplify_map_eq.
  - by repeat constructor.
Qed.

Lemma sample_ext_contract : raises_only_LookupError sample_ext.
Proof.
  intros v e. simpl. unfold sample_map_relation_type.
  repeat case_match; intros; simplify_eq; reflexivity.
Qed.

Lemma sample_context_rendering : rendering_context sample_context.
Proof. exists (VRequest 1). reflexivity. Qed.

Lemma C4_cross_sells_keys_witness :
  exists t m,
    ProductCrossSellsPlugin_get_context_data sample_ext
      (<["type" := VStr "related"]> ∅) sample_context = (t, Ok m)
    /\ dom m = ({["request"; "title"; "product"; "type"; "count"; "orderable_only"]}
                : gset string)
    /\ m !! "products" = None
    /\ Forall (fun c => is_product_query c = false) t.
Proof.
  apply (C4_cross_sells_keys sample_ext (<["type" := VStr "related"]> ∅) sample_context).
  - exact sample_ext_contract.
  - exact sample_context_rendering.
Defined.

(** C9: on a rendering context that has no "product" variable the cross-sell
    plugin raises nothing and returns a mapping whose "product" entry is
    None. *)
Theorem C9_cross_sells_without_product ext (config context : dict) :
  raises_only_LookupError ext ->
  rendering_context context ->
  context !! "product" = None ->
  exists t m,
    ProductCrossSellsPlugin_get_context_data ext config context = (t, Ok m)
    /\ m !! "product" = Some VNone.
Proof.
  intros Hc [request Hreq] Hprod.
  destruct (resolve_relation_type_total ext (dict_get config "type" VNone) Hc)
    as [ty Hres].
  rewrite (cross_sells_context_data _ _ _ _ _ Hres Hreq).
  eexists _, _. split; [reflexivity|].
  rewrite (dict_get_None _ _ _ Hprod). by simplify_map_eq.
Qed.

Lemma C9_cross_sells_without_product_witness :
  exists t m,
    ProductCrossSellsPlugin_get_context_data sample_ext
      (<["type" := VStr "computed"]> ∅) sample_context = (t, Ok m)
    /\ m !! "product" = Some VNone.
Proof.
  apply (C9_cross_sells_without_product sample_ext _ sample_context).
  - exact sample_ext_contract.
  - exact sample_context_rendering.
  - reflexivity.
Defined.

(** *** The constructor and the caller's dictionary *)

Lemma deref_setitem_same st l key v :
  deref (setitem st l key v) l = <[key := v]> (deref st l).
Proof. unfold setitem, deref at 1. by rewrite lookup_insert_eq. Qed.

Lemma setitem_other st l l' key v :
  l' <> l -> setitem st l key v !! l' = st !! l'.
Proof. intros H. unfold setitem. by rewrite lookup_insert_ne. Qed.

Lemma truthy_VStr s : truthy (VStr s) = true <-> s <> "".
Proof.
  simpl. rewrite negb_true_iff, <- not_true_iff_false, String.eqb_eq. done.
Qed.

Lemma init_truthy ext st l t :
  truthy (dict_get (deref st l) "type" VNone) = true ->
  resolve_relation_type ext (dict_get (deref st l) "type" VNone)
    = ([Call_map_relation_type (dict_get (deref st l) "type" VNone)], Ok t) ->
  ProductCrossSellsPlugin_init ext st l =
    ([Call_map_relation_type (dict_get (deref st l) "type" VNone)],
     Ok (setitem st l "type" t, mkPlugin l)).
Proof.
  intros Htr Hres. unfold ProductCrossSellsPlugin_init.
  rewrite Htr, Hres. reflexivity.
Qed.

Lemma init_falsy ext st l :
  truthy (dict_get (deref st l) "type" VNone) = false ->
  ProductCrossSellsPlugin_init ext st l = ([], Ok (st, mkPlugin l)).
Proof.
  intros Htr. unfold ProductCrossSellsPlugin_init. by rewrite Htr.
Qed.

(** A failure of the mapping that is no lookup error leaves the constructor
    before anything is written. *)
Lemma init_propagates ext st l e :
  truthy (dict_get (deref st l) "type" VNone) = true ->
  map_relation_type ext (dict_get (deref st l) "type" VNone) = Raise e ->
  is_LookupError e = false ->
  outcome (ProductCrossSellsPlugin_init ext st l) = Raise e.
Proof.
  intros Htr Hmap He. unfold ProductCrossSellsPlugin_init.
  rewrite Htr, (resolve_relation_type_propagated _ _ _ Hmap He). reflexivity.
Qed.

(** C10: the constructor writes into the dictionary it was handed. With a
    true "type" value the entry becomes the mapped relation type, or RELATED
    when the mapping fails with a lookup error, in the caller's own
    dictionary, which the new plugin then refers to; every other entry and
    every other dictionary is as before. A false or absent "type" leaves the
    store as it was. *)
Theorem C10_init_mutates_caller_config ext (st : store) (l : loc) :
  let relation_type := dict_get (deref st l) "type" VNone in
  (truthy relation_type = true ->
   forall t,
     map_relation_type ext relation_type = Ok t
     \/ (exists e, map_relation_type ext relation_type = Raise e
                   /\ is_LookupError e = true /\ t = VRelationType RELATED) ->
     exists st',
       outcome (ProductCrossSellsPlugin_init ext st l) = Ok (st', mkPlugin l)
       /\ deref st' l = <["type" := t]> (deref st l)
       /\ forall l', l' <> l -> st' !! l' = st !! l')
  /\ (truthy relation_type = false ->
      ProductCrossSellsPlugin_init ext st l = ([], Ok (st, mkPlugin l))).
Proof.
  intros relation_type. split.
  - intros Htr t Hmap. exists (setitem st l "type" t).
    assert (resolve_relation_type ext relation_type
            = ([Call_map_relation_type relation_type], Ok t)) as Hres.
    { destruct Hmap as [Hok | (e & Hr & He & ->)].
      - by apply resolve_relation_type_Ok.
      - by eapply resolve_relation_type_caught. }
    rewrite (init_truthy _ _ _ _ Htr Hres). simpl.
    split; [reflexivity|]. split.
    + apply deref_setitem_same.
    + intros l' Hl'. by apply setitem_other.
  - apply init_falsy.
Qed.

Lemma C10_init_mutates_caller_config_witness :
  (exists st',
     outcome (ProductCrossSellsPlugin_init sample_ext
                {[ 1%positive := <["type" := VStr "nonsense"]> ∅ ]} 1%positive)
       = Ok (st', mkPlugin 1%positive)
     /\ deref st' 1%positive !! "type" = Some (VRelationType RELATED))
  /\ ProductCrossSellsPlugin_init sample_ext {[ 1%positive := ∅ ]} 1%positive
     = ([], Ok ({[ 1%positive := ∅ ]}, mkPlugin 1%positive)).
Proof.
  split.
  - destruct (C10_init_mutates_caller_config sample_ext
                {[ 1%positive := <["type" := VStr "nonsense"]> ∅ ]} 1%positive)
      as [H _].
    destruct (H eq_refl (VRelationType RELATED)) as (st' & Hout & Hcfg & _).
    + right. exists LookupError. repeat split; reflexivity.
    + exists st'. split; [exact Hout|]. rewrite Hcfg. reflexivity.
  - destruct (C10_init_mutates_caller_config sample_ext
                {[ 1%positive := ∅ ]} 1%positive) as [_ H].
    apply H. reflexivity.
Defined.

(** *** Unknown relation types *)

(** C2, as amended: for a stored relation-type string on which the mapping
    fails with a lookup error, the constructor stores RELATED in its place
    when the string is not empty, and get_context_data reports RELATED for
    every such string, the empty one included; neither propagates the
    error. *)
Theorem C2_unknown_relation_type_defaults ext (s : string) (e : exn) :
  map_relation_type ext (VStr s) = Raise e ->
  is_LookupError e = true ->
  (forall (st : store) (l : loc),
     deref st l !! "type" = Some (VStr s) ->
     s <> "" ->
     ProductCrossSellsPlugin_init ext st l =
       ([Call_map_relation_type (VStr s)],
        Ok (setitem st l "type" (VRelationType RELATED), mkPlugin l))
     /\ deref (setitem st l "type" (VRelationType RELATED)) l !! "type"
        = Some (VRelationType RELATED))
  /\ (forall config context : dict,
        config !! "type" = Some (VStr s) ->
        rendering_context context ->
        exists m,
          ProductCrossSellsPlugin_get_context_data ext config context
            = ([Call_map_relation_type (VStr s)], Ok m)
          /\ m !! "type" = Some (VRelationType RELATED)).
Proof.
  intros Hmap He. split.
  - intros st l Hty Hs.
    pose proof (dict_get_Some _ _ VNone _ Hty) as Hget. split.
    + rewrite <- Hget. apply init_truthy.
      * rewrite Hget. by apply truthy_VStr.
      * rewrite Hget. by eapply resolve_relation_type_caught.
    + rewrite deref_setitem_same. by simplify_map_eq.
  - intros config context Hty [request Hreq].
    pose proof (dict_get_Some _ _ VNone _ Hty) as Hget.
    pose proof (resolve_relation_type_caught _ _ _ Hmap He) as Hres.
    rewrite <- Hget in Hres at 1 2.
    rewrite (cross_sells_context_data _ _ _ _ _ Hres Hreq), Hget.
    eexists. split; [reflexivity|]. by simplify_map_eq.
Qed.

Lemma C2_unknown_relation_type_defaults_witness :
  (ProductCrossSellsPlugin_init sample_ext
     {[ 1%positive := <["type" := VStr "upsell"]> ∅ ]} 1%positive =
     ([Call_map_relation_type (VStr "upsell")],
      Ok (setitem {[ 1%positive := <["type" := VStr "upsell"]> ∅ ]} 1%positive
            "type" (VRelationType RELATED),
          mkPlugin 1%positive)))
  /\ (exists m,
        ProductCrossSellsPlugin_get_context_data sample_ext
          (<["type" := VStr "upsell"]> ∅) sample_context
          = ([Call_map_relation_type (VStr "upsell")], Ok m)
        /\ m !! "type" = Some (VRelationType RELATED)).
Proof.
  destruct (C2_unknown_relation_type_defaults sample_ext "upsell" LookupError
              eq_refl eq_refl) as [Hinit Hctx].
  split.
  - apply Hinit; [reflexivity | discriminate].
  - apply Hctx; [reflexivity | exact sample_context_rendering].
Defined.

(** C2 as stated fails at construction for the empty string: the mapping
    fails on it with a lookup error, yet the constructor, which maps true
    values only, returns with the empty string still stored as the type. *)
Lemma C2_counterexample_empty_string :
  map_relation_type sample_ext (VStr "") = Raise LookupError
  /\ is_LookupError LookupError = true
  /\ exists st',
       ProductCrossSellsPlugin_init sample_ext
         {[ 1%positive := <["type" := VStr ""]> ∅ ]} 1%positive
         = ([], Ok (st', mkPlugin 1%positive))
       /\ deref st' 1%positive !! "type" = Some (VStr "")
       /\ deref st' 1%positive !! "type" <> Some (VRelationType RELATED).
Proof.
  split; [reflexivity|]. split; [reflexivity|].
  eexists. split; [reflexivity|]. split; [reflexivity|]. discriminate.
Qed.

(** ** ProductsFromCategoryPlugin *)

Lemma head_filter_find {A} (f : A -> bool) (l : list A) :
  head (List.filter f l) = List.find f l.
Proof.
  induction l as [|a l IH]; [done|]. simpl. by destruct (f a).
Qed.

Lemma filter_no_category table z :
  no_category_with_id table z = true ->
  List.filter (fun c => cat_id c =? z) table = [].
Proof.
  unfold no_category_with_id. induction table as [|c table IH]; [done|].
  simpl. intros [Hc Hrest]%andb_true_iff.
  apply negb_true_iff in Hc. rewrite Hc. by apply IH.
Qed.

(** Without a found category the plugin makes no product query. *)
Lemma category_products_falsy ext table (config context : dict) request :
  truthy (dict_get config "category" VNone) = false ->
  context !! "request" = Some request ->
  ProductsFromCategoryPlugin_get_context_data ext table config context =
    ([], Ok (products_context ext config request (VList []))).
Proof.
  intros Hf Hreq. unfold ProductsFromCategoryPlugin_get_context_data.
  rewrite Hf. simpl. rewrite (subscript_Some _ _ _ Hreq). reflexivity.
Qed.

Lemma category_products_by_id ext table (config context : dict) z request :
  config !! "category" = Some (VInt z) ->
  z <> 0 ->
  context !! "request" = Some request ->
  ProductsFromCategoryPlugin_get_context_data ext table config context =
    match List.find (fun c => cat_id c =? z) table with
    | Some c =>
        let call :=
          Call_get_products_for_categories context [c]
            (dict_get config "count" VNone)
            (dict_get config "orderable_only" (VBool true))
            (dict_get config "sale_items_only" (VBool false)) in
        ([Call_Category_filter_id (VInt z); call],
         match get_products_for_categories ext context [c]
                 (dict_get config "count" VNone)
                 (dict_get config "orderable_only" (VBool true))
                 (dict_get config "sale_items_only" (VBool false)) with
         | Ok products => Ok (products_context ext config request products)
         | Raise e => Raise e
         end)
    | None =>
        ([Call_Category_filter_id (VInt z)],
         Ok (products_context ext config request (VList [])))
    end.
Proof.
  intros Hcat Hz Hreq. unfold ProductsFromCategoryPlugin_get_context_data.
  rewrite (dict_get_Some _ _ _ _ Hcat). simpl truthy.
  apply Z.eqb_neq in Hz. rewrite Hz. simpl negb. cbv iota.
  unfold Category_objects_filter_id, emit, bind at 3, ret at 1. simpl app.
  unfold bind at 2. rewrite head_filter_find.
  destruct (List.find _ table) as [c|]; simpl.
  - destruct (get_products_for_categories _ _ _ _ _ _) as [products|e]; simpl;
      [|reflexivity].
    rewrite (subscript_Some _ _ _ Hreq). reflexivity.
  - rewrite (subscript_Some _ _ _ Hreq). reflexivity.
Qed.

(** C1, as amended: with a stored non-zero integer identifier the plugin
    looks the category up by primary key in the whole category table, with
    no regard to deletion or shop. The first row found is handed, as a
    one-element list, to the category-products helper together with the
    stored count and the orderable and sale filters, and the helper's
    products are returned; when no row has the key, no query is made and the
    product list is empty. *)
Theorem C1_category_loaded_by_primary_key
    ext table (config context : dict) z request :
  config !! "category" = Some (VInt z) ->
  z <> 0 ->
  context !! "request" = Some request ->
  let count := dict_get config "count" VNone in
  let orderable_only := dict_get config "orderable_only" (VBool true) in
  let sale_items_only := dict_get config "sale_items_only" (VBool false) in
  (forall c,
     List.find (fun c => cat_id c =? z) table = Some c ->
     ProductsFromCategoryPlugin_get_context_data ext table config context =
       ([Call_Category_filter_id (VInt z);
         Call_get_products_for_categories
           context [c] count orderable_only sale_items_only],
        match get_products_for_categories ext
                context [c] count orderable_only sale_items_only with
        | Ok products => Ok (products_context ext config request products)
        | Raise e => Raise e
        end))
  /\ (List.find (fun c => cat_id c =? z) table = None ->
      ProductsFromCategoryPlugin_get_context_data ext table config context =
        ([Call_Category_filter_id (VInt z)],
         Ok (products_context ext config request (VList [])))).
Proof.
  intros Hcat Hz Hreq count orderable_only sale_items_only.
  pose proof (category_products_by_id ext table _ _ _ _ Hcat Hz Hreq) as H.
  split.
  - intros c Hfind. by rewrite Hfind in H.
  - intros Hfind. by rewrite Hfind in H.
Qed.

Lemma C1_category_loaded_by_primary_key_witness :
  ProductsFromCategoryPlugin_get_context_data sample_ext sample_table
    (<["category" := VInt 3]> (<["count" := VInt 1]> ∅)) sample_context =
    ([Call_Category_filter_id (VInt 3);
      Call_get_products_for_categories sample_context [mkCategory 3 false [1]]
        (VInt 1) (VBool true) (VBool false)],
     Ok (products_context sample_ext
           (<["category" := VInt 3]> (<["count" := VInt 1]> ∅))
           (VRequest 1) (VList [VProduct 11]))).
Proof.
  destruct (C1_category_loaded_by_primary_key sample_ext sample_table
              (<["category" := VInt 3]> (<["count" := VInt 1]> ∅)) sample_context
              3 (VRequest 1)) as [H _]; [reflexivity | lia | reflexivity |].
  exact (H (mkCategory 3 false [1]) eq_refl).
Defined.

(** C1 as stated fails: category 7 of the sample table is deleted and
    category 9 belongs to another shop than the active shop 1, so the lookup
    of the specification finds neither and the product list would be empty;
    the plugin finds both and returns the helper's products. *)
Lemma C1_counterexample_deleted_or_foreign_category :
  (products_of (outcome
     (ProductsFromCategoryPlugin_get_context_data sample_ext sample_table
        (<["category" := VInt 7]> ∅) sample_context))
     = Some (VList [VProduct 11; VProduct 12])
   /\ products_of (outcome
        (spec_ProductsFromCategoryPlugin_get_context_data sample_ext sample_table 1
           (<["category" := VInt 7]> ∅) sample_context))
      = Some (VList []))
  /\ (products_of (outcome
        (ProductsFromCategoryPlugin_get_context_data sample_ext sample_table
           (<["category" := VInt 9]> ∅) sample_context))
        = Some (VList [VProduct 11; VProduct 12])
      /\ products_of (outcome
           (spec_ProductsFromCategoryPlugin_get_context_data sample_ext sample_table 1
              (<["category" := VInt 9]> ∅) sample_context))
         = Some (VList []))
  /\ outcome (ProductsFromCategoryPlugin_get_context_data sample_ext sample_table
                (<["category" := VInt 7]> ∅) sample_context)
     <> outcome (spec_ProductsFromCategoryPlugin_get_context_data sample_ext
                   sample_table 1 (<["category" := VInt 7]> ∅) sample_context).
Proof.
  repeat split; try reflexivity.
  intros H. apply (f_equal products_of) in H. vm_compute in H. discriminate.
Qed.

(** C6: when the stored category identifier matches no category (it is
    missing, None or otherwise false, or an integer that no row of the table
    has as primary key), the plugin raises nothing on a rendering context,
    makes no product query and returns a context whose "products" entry is
    the empty list. *)
Theorem C6_no_category_empty_products ext table (config context : dict) :
  matches_no_category table config = true ->
  rendering_context context ->
  exists t m,
    ProductsFromCategoryPlugin_get_context_data ext table config context = (t, Ok m)
    /\ m !! "products" = Some (VList [])
    /\ Forall (fun c => is_product_query c = false) t.
Proof.
  unfold matches_no_category. intros Hno [request Hreq].
  assert (forall v, dict_get config "category" VNone = v -> truthy v = false ->
          exists t m,
            ProductsFromCategoryPlugin_get_context_data ext table config context
              = (t, Ok m)
            /\ m !! "products" = Some (VList [])
            /\ Forall (fun c => is_product_query c = false) t) as Hfalsy.
  { intros v <- Hv. rewrite (category_products_falsy _ _ _ _ _ Hv Hreq).
    eexists _, _. split; [reflexivity|]. split; [by simplify_map_eq | constructor]. }
  destruct (config !! "category") as [v|] eqn:Hcat.
  - destruct v as [ |b|z|s|r|c|pk|shop|l];
      try (apply (Hfalsy _ (dict_get_Some _ _ _ _ Hcat));
           by apply negb_true_iff in Hno).
    destruct (decide (z = 0)) as [->|Hz].
    + by apply (Hfalsy _ (dict_get_Some _ _ _ _ Hcat)).
    + rewrite (category_products_by_id _ _ _ _ _ _ Hcat Hz Hreq).
      rewrite <- head_filter_find, (filter_no_category _ _ Hno). simpl.
      eexists _, _. split; [reflexivity|].
      split; [by simplify_map_eq | by repeat constructor].
  - by apply (Hfalsy _ (dict_get_None _ _ _ Hcat)).
Qed.

Lemma C6_no_category_empty_products_witness :
  exists t m,
    ProductsFromCategoryPlugin_get_context_data sample_ext sample_table
      (<["category" := VInt 5]> (<["count" := VInt 4]> ∅)) sample_context = (t, Ok m)
    /\ m !! "products" = Some (VList [])
    /\ Forall (fun c => is_product_query c = false) t.
Proof.
  apply (C6_no_category_empty_products sample_ext sample_table
           (<["category" := VInt 5]> (<["count" := VInt 4]> ∅)) sample_context).
  - reflexivity.
  - exact sample_context_rendering.
Defined.

(** ** The count on its way to the helpers *)

Lemma highlight_trace ext (config context : dict) (t : HighlightType) :
  dict_get config "type" (VStr (HighlightType_value NEWEST))
    = VStr (HighlightType_value t) ->
  trace (ProductHighlightPlugin_get_context_data ext config context) =
    [highlight_call t context
       (dict_get config "count" (VInt 4))
       (dict_get config "orderable_only" (VBool true))
       (dict_get config "sale_items_only" (VBool false))].
Proof.
  intros Hty. unfold ProductHighlightPlugin_get_context_data. rewrite Hty.
  destruct t; simpl; (case_match; [|reflexivity]);
    unfold subscript; by destruct (context !! "request").
Qed.

Lemma highlight_queries_with_count ext (config context : dict) :
  queries_with_count (dict_get config "count" (VInt 4))
    (trace (ProductHighlightPlugin_get_context_data ext config context)).
Proof.
  set (ty := dict_get config "type" (VStr (HighlightType_value NEWEST))).
  assert (forall t, py_eq_str ty (HighlightType_value t) = true ->
          queries_with_count (dict_get config "count" (VInt 4))
            (trace (ProductHighlightPlugin_get_context_data ext config context)))
    as Hknown.
  { intros t Ht%py_eq_str_true. rewrite (highlight_trace _ _ _ t Ht).
    constructor; [|constructor]. intros n. destruct t; simpl; congruence. }
  destruct (py_eq_str ty (HighlightType_value NEWEST)) eqn:E1;
    [by apply (Hknown NEWEST)|].
  destruct (py_eq_str ty (HighlightType_value BEST_SELLING)) eqn:E2;
    [by apply (Hknown BEST_SELLING)|].
  destruct (py_eq_str ty (HighlightType_value RANDOM)) eqn:E3;
    [by apply (Hknown RANDOM)|].
  unfold ProductHighlightPlugin_get_context_data. fold ty.
  rewrite E1, E2, E3. simpl. unfold subscript.
  destruct (context !! "request"); constructor.
Qed.

Lemma category_queries_with_count ext table (config context : dict) :
  queries_with_count (dict_get config "count" VNone)
    (trace (ProductsFromCategoryPlugin_get_context_data ext table config context)).
Proof.
  unfold ProductsFromCategoryPlugin_get_context_data, queries_with_count,
    Category_objects_filter_id, subscript, emit, bind, ret, raise, trace.
  repeat case_match; simplify_eq; simpl;
    repeat (constructor; try (intros n; simpl; congruence)).
Qed.

Lemma cross_sells_trace ext (config context : dict) :
  Forall (fun c => is_product_query c = false)
    (trace (ProductCrossSellsPlugin_get_context_data ext config context)).
Proof.
  unfold ProductCrossSellsPlugin_get_context_data, resolve_relation_type,
    try_except_LookupError, subscript, emit, bind, ret, raise, trace.
  repeat case_match; simplify_eq; simpl; by repeat constructor.
Qed.

Lemma cross_sells_count ext (config context : dict) m :
  outcome (ProductCrossSellsPlugin_get_context_data ext config context) = Ok m ->
  m !! "count" = Some (dict_get config "count" (VInt 4)).
Proof.
  unfold ProductCrossSellsPlugin_get_context_data, resolve_relation_type,
    try_except_LookupError, subscript, emit, bind, ret, raise, outcome.
  repeat case_match; simplify_eq; simpl; intros; simplify_eq; by simplify_map_eq.
Qed.

(** C5: the count read from the configuration, or its default (4 in the
    highlight plugin, None in the category plugin), is the count argument of
    every product query a plugin makes. The highlight plugin with one of the
    three type codes makes exactly the query of that type, with this count.
    The cross-sell plugin makes no product query and hands the count on, as
    read, under the "count" key of the mapping it returns. *)
Theorem C5_count_passed_unchanged ext table (config context : dict) :
  (queries_with_count (dict_get config "count" (VInt 4))
     (trace (ProductHighlightPlugin_get_context_data ext config context))
   /\ forall t : HighlightType,
        dict_get config "type" (VStr (HighlightType_value NEWEST))
          = VStr (HighlightType_value t) ->
        trace (ProductHighlightPlugin_get_context_data ext config context) =
          [highlight_call t context
             (dict_get config "count" (VInt 4))
             (dict_get config "orderable_only" (VBool true))
             (dict_get config "sale_items_only" (VBool false))])
  /\ queries_with_count (dict_get config "count" VNone)
       (trace (ProductsFromCategoryPlugin_get_context_data ext table config context))
  /\ (Forall (fun c => is_product_query c = false)
        (trace (ProductCrossSellsPlugin_get_context_data ext config context))
      /\ forall m,
           outcome (ProductCrossSellsPlugin_get_context_data ext config context)
             = Ok m ->
           m !! "count" = Some (dict_get config "count" (VInt 4))).
Proof.
  split; [split|split; [|split]].
  - apply highlight_queries_with_count.
  - apply highlight_trace.
  - apply category_queries_with_count.
  - apply cross_sells_trace.
  - apply cross_sells_count.
Qed.

Lemma C5_count_passed_unchanged_witness :
  trace (ProductHighlightPlugin_get_context_data sample_ext
           (<["type" := VStr "random"]> (<["count" := VInt 12]> ∅)) sample_context)
    = [Call_get_random_products sample_context (VInt 12) (VBool true) (VBool false)]
  /\ trace (ProductsFromCategoryPlugin_get_context_data sample_ext sample_table
              (<["category" := VInt 3]> (<["count" := VInt 12]> ∅)) sample_context)
     = [Call_Category_filter_id (VInt 3);
        Call_get_products_for_categories sample_context [mkCategory 3 false [1]]
          (VInt 12) (VBool true) (VBool false)]
  /\ queries_with_count (VInt 12)
       (trace (ProductsFromCategoryPlugin_get_context_data sample_ext sample_table
                 (<["category" := VInt 3]> (<["count" := VInt 12]> ∅))
                 sample_context)).
Proof.
  split; [|split].
  - destruct (C5_count_passed_unchanged sample_ext sample_table
                (<["type" := VStr "random"]> (<["count" := VInt 12]> ∅))
                sample_context) as [[_ H] _].
    exact (H RANDOM eq_refl).
  - reflexivity.
  - destruct (C5_count_passed_unchanged sample_ext sample_table
                (<["category" := VInt 3]> (<["count" := VInt 12]> ∅))
                sample_context) as (_ & H & _).
    exact H.
Defined.

(** ** The category-products form *)

(** C7: after [clean] the "category" entry of the cleaned data is the primary
    key of the selected category; when the entry held no object with a
    primary key (nothing was selected, or the key was absent) it is None.
    The other entries are as the base [clean] left them. *)
Theorem C7_clean_stores_primary_key (cleaned_data : dict) :
  (forall c,
     cleaned_data !! "category" = Some (VCategory c) ->
     ProductsFromCategoryForm_clean cleaned_data !! "category"
       = Some (VInt (cat_id c)))
  /\ (getattr_pk (dict_get cleaned_data "category" VNone) = None ->
      ProductsFromCategoryForm_clean cleaned_data !! "category" = Some VNone)
  /\ (forall key,
        key <> "category" ->
        ProductsFromCategoryForm_clean cleaned_data !! key = cleaned_data !! key).
Proof.
  unfold ProductsFromCategoryForm_clean. split; [|split].
  - intros c Hc. rewrite (dict_get_Some _ _ _ _ Hc). simpl.
    apply lookup_insert_eq.
  - intros Hpk. rewrite Hpk. apply lookup_insert_eq.
  - intros key Hkey. by apply lookup_insert_ne.
Qed.

Lemma C7_clean_stores_primary_key_witness :
  ProductsFromCategoryForm_clean
    (<["category" := VCategory (mkCategory 3 false [1])]> (<["count" := VInt 4]> ∅))
    !! "category" = Some (VInt 3)
  /\ ProductsFromCategoryForm_clean
       (<["category" := VNone]> (<["count" := VInt 4]> ∅)) !! "category"
     = Some VNone.
Proof.
  split.
  - destruct (C7_clean_stores_primary_key
                (<["category" := VCategory (mkCategory 3 false [1])]>
                   (<["count" := VInt 4]> ∅))) as [H _].
    exact (H (mkCategory 3 false [1]) eq_refl).
  - destruct (C7_clean_stores_primary_key
                (<["category" := VNone]> (<["count" := VInt 4]> ∅))) as (_ & H & _).
    exact (H eq_refl).
Defined.

(** ** Accepted configurations *)

Section Accepted.

Variable int_of_string : string -> option Z.
Variable other_to_python : Field -> value -> option value.

(** A required integer field with minimum [m] yields an integer not below
    [m] or rejects the input. *)
Lemma IntegerField_clean_min m initial raw v :
  Field_clean int_of_string other_to_python
    (IntegerField (Some m) true initial) raw = Some v ->
  exists z, v = VInt z /\ m <= z.
Proof.
  unfold Field_clean, Field_to_python.
  destruct (is_empty_value raw); simpl; [discriminate|].
  destruct raw as [ |b|z|s|r|c|pk|shop|l]; simpl; try discriminate.
  - destruct (m <=? z) eqn:E; [|discriminate].
    intros [= <-]. exists z. split; [done | by apply Z.leb_le].
  - destruct (int_of_string s) as [z|]; simpl; [|discriminate].
    destruct (m <=? z) eqn:E; [|discriminate].
    intros [= <-]. exists z. split; [done | by apply Z.leb_le].
Qed.

(** When every field declared under a name is such an integer field, and
    there is one, the accepted data hold an integer not below the minimum
    under that name. *)
Lemma clean_fields_min name m fields data cleaned :
  (forall f, In (name, f) fields -> exists i, f = IntegerField (Some m) true i) ->
  (exists f, In (name, f) fields) ->
  clean_fields int_of_string other_to_python fields data = Some cleaned ->
  exists z, cleaned !! name = Some (VInt z) /\ m <= z.
Proof.
  revert cleaned. induction fields as [|[n f] rest IH]; intros cleaned Hall Hex.
  - destruct Hex as [f []].
  - simpl. destruct (Field_clean _ _ f _) as [v|] eqn:Hf; [|discriminate].
    destruct (clean_fields _ _ rest data) as [cleaned'|] eqn:Hrest; [|discriminate].
    intros [= <-]. destruct (decide (n = name)) as [->|Hn].
    + destruct (Hall f (or_introl eq_refl)) as [i ->].
      destruct (IntegerField_clean_min _ _ _ _ Hf) as (z & -> & Hz).
      exists z. by rewrite lookup_insert_eq.
    + rewrite lookup_insert_ne by done. apply IH; [| |done].
      * intros g Hg. apply Hall. by right.
      * destruct Hex as [g [[= ? _]|Hg]]; [done | by exists g].
Qed.

End Accepted.

(** The fields the forms declare under "count". *)
Lemma populated_count_fields plugin_fields plugin_config f :
  plugin_fields = ProductHighlightPlugin_fields
  \/ plugin_fields = ProductCrossSellsPlugin_fields
  \/ plugin_fields = ProductsFromCategoryPlugin_fields ->
  In ("count", f) (populate_loop plugin_fields plugin_config []) <->
  f = IntegerField (Some 1) true (dict_get plugin_config "count" (VInt 4)).
Proof.
  intros [-> | [-> | ->]]; simpl; split;
    try (intros H; repeat (destruct H as [H|H]; [by simplify_eq|]); by destruct H);
    intros ->; tauto.
Qed.

Lemma category_form_count_fields table shop plugin_config f :
  In ("count", f)
    (ProductsFromCategoryForm_populate table shop
       ProductsFromCategoryPlugin_fields plugin_config) <->
  f = IntegerField (Some 1) true (dict_get plugin_config "count" (VInt 4)).
Proof.
  unfold ProductsFromCategoryForm_populate. simpl. split.
  - intros H; repeat (destruct H as [H|H]; [by simplify_eq|]); by destruct H.
  - intros ->. tauto.
Qed.

(** C8: the count field of each of the three plugins is a required integer
    field with minimum 1, and a configuration that the plugin's form accepts
    holds an integer count of at least 1. *)
Theorem C8_accepted_count_at_least_one
    (int_of_string : string -> option Z)
    (other_to_python : Field -> value -> option value)
    (table : list Category) (request_shop : Z)
    (plugin_config data config : dict) :
  GenericPluginForm_config int_of_string other_to_python
    ProductHighlightPlugin_fields plugin_config data = Some config
  \/ GenericPluginForm_config int_of_string other_to_python
       ProductCrossSellsPlugin_fields plugin_config data = Some config
  \/ ProductsFromCategoryForm_config int_of_string other_to_python
       table request_shop ProductsFromCategoryPlugin_fields plugin_config data
     = Some config ->
  Forall (fun fields => In (FTuple "count" (IntegerField (Some 1) true (VInt 4))) fields)
    [ProductHighlightPlugin_fields; ProductCrossSellsPlugin_fields;
     ProductsFromCategoryPlugin_fields]
  /\ exists z, config !! "count" = Some (VInt z) /\ 1 <= z.
Proof.
  intros Hacc. split.
  { repeat constructor; simpl; tauto. }
  assert (forall plugin_fields,
            plugin_fields = ProductHighlightPlugin_fields
            \/ plugin_fields = ProductCrossSellsPlugin_fields
            \/ plugin_fields = ProductsFromCategoryPlugin_fields ->
            GenericPluginForm_config int_of_string other_to_python
              plugin_fields plugin_config data = Some config ->
            exists z, config !! "count" = Some (VInt z) /\ 1 <= z) as Hgeneric.
  { intros plugin_fields Hpf.
    apply clean_fields_min.
    - intros f Hf%(populated_count_fields _ _ _ Hpf). eauto.
    - eexists. by apply (populated_count_fields _ _ _ Hpf). }
  destruct Hacc as [H | [H | H]].
  - apply (Hgeneric _ (or_introl eq_refl) H).
  - apply (Hgeneric _ (or_intror (or_introl eq_refl)) H).
  - unfold ProductsFromCategoryForm_config in H.
    destruct (clean_fields _ _ _ data) as [cleaned|] eqn:Hcl; [|discriminate].
    simpl in H. injection H as <-.
    assert (exists z, cleaned !! "count" = Some (VInt z) /\ 1 <= z)
      as (z & Hz & Hle).
    { eapply clean_fields_min; [| |exact Hcl].
      - intros f Hf%category_form_count_fields. eauto.
      - eexists. by apply category_form_count_fields. }
    exists z. split; [|done].
    unfold ProductsFromCategoryForm_clean. by rewrite lookup_insert_ne.
Qed.

Lemma C8_accepted_count_at_least_one_witness :
  GenericPluginForm_config sample_int_of_string sample_other_to_python
    ProductHighlightPlugin_fields ∅
    (<["type" := VStr "newest"]> (<["count" := VStr "12"]> ∅))
    = Some (<["title" := VNone]>
            (<["type" := VStr "newest"]>
            (<["count" := VInt 12]>
            (<["sale_items_only" := VBool false]>
            (<["orderable_only" := VBool false]> ∅)))))
  /\ exists z,
       (<["title" := VNone]>
        (<["type" := VStr "newest"]>
        (<["count" := VInt 12]>
        (<["sale_items_only" := VBool false]>
        (<["orderable_only" := VBool false]> (∅ : dict)))))) !! "count"
         = Some (VInt z) /\ 1 <= z.
Proof.
  assert (GenericPluginForm_config sample_int_of_string sample_other_to_python
            ProductHighlightPlugin_fields ∅
            (<["type" := VStr "newest"]> (<["count" := VStr "12"]> ∅))
          = Some (<["title" := VNone]>
                  (<["type" := VStr "newest"]>
                  (<["count" := VInt 12]>
                  (<["sale_items_only" := VBool false]>
                  (<["orderable_only" := VBool false]> ∅)))))) as Hacc
    by (vm_compute; reflexivity).
  split; [exact Hacc|].
  exact (proj2 (C8_accepted_count_at_least_one
                  sample_int_of_string sample_other_to_python
                  sample_table 1 ∅ _ _ (or_introl Hacc))).
Defined.

(** * Further properties of the plugins *)

(** ** What the highlight plugin returns for a known type *)

Lemma highlight_emit_helper ext (t : HighlightType) (config context : dict) :
  dict_get config "type" (VStr (HighlightType_value NEWEST))
    = VStr (HighlightType_value t) ->
  ProductHighlightPlugin_get_context_data ext config context =
    (do products <-
       emit (highlight_call t context
               (dict_get config "count" (VInt 4))
               (dict_get config "orderable_only" (VBool true))
               (dict_get config "sale_items_only" (VBool false)))
            (highlight_helper ext t context
               (dict_get config "count" (VInt 4))
               (dict_get config "orderable_only" (VBool true))
               (dict_get config "sale_items_only" (VBool false)));
     do request <- subscript context "request";
     ret (products_context ext config request products)).
Proof.
  intros Hty. unfold ProductHighlightPlugin_get_context_data. rewrite Hty.
  destruct t; reflexivity.
Qed.

(** X1: with one of the three type codes the highlight plugin makes the one
    query of that type and returns the helper's products, as they are, under
    "products"; when the helper raises, the plugin raises the same
    exception. *)
Theorem X1_highlight_returns_helper_products
    ext (t : HighlightType) (config context : dict) request :
  dict_get config "type" (VStr (HighlightType_value NEWEST))
    = VStr (HighlightType_value t) ->
  context !! "request" = Some request ->
  let count := dict_get config "count" (VInt 4) in
  let orderable_only := dict_get config "orderable_only" (VBool true) in
  let sale_items_only := dict_get config "sale_items_only" (VBool false) in
  ProductHighlightPlugin_get_context_data ext config context =
    ([highlight_call t context count orderable_only sale_items_only],
     match highlight_helper ext t context count orderable_only sale_items_only with
     | Ok products => Ok (products_context ext config request products)
     | Raise e => Raise e
     end).
Proof.
  intros Hty Hreq. simpl. rewrite (highlight_emit_helper _ _ _ _ Hty).
  unfold emit, bind.
  destruct (highlight_helper _ _ _ _ _ _) as [products|e]; [|reflexivity].
  rewrite (subscript_Some _ _ _ Hreq). reflexivity.
Qed.

Lemma X1_highlight_returns_helper_products_witness :
  ProductHighlightPlugin_get_context_data sample_ext
    (<["type" := VStr "best_selling"]> (<["count" := VInt 1]> ∅)) sample_context =
    ([Call_get_best_selling_products sample_context (VInt 1) (VBool true) (VBool false)],
     Ok (products_context sample_ext
           (<["type" := VStr "best_selling"]> (<["count" := VInt 1]> ∅))
           (VRequest 1) (VList [VProduct 11]))).
Proof.
  exact (X1_highlight_returns_helper_products sample_ext BEST_SELLING
           (<["type" := VStr "best_selling"]> (<["count" := VInt 1]> ∅))
           sample_context (VRequest 1) eq_refl eq_refl).
Defined.

(** X2: a configuration without a "type" key is rendered as NEWEST: the one
    call made is get_newest_products, with the stored count, orderable and
    sale filters or their defaults 4, True and False. *)
Theorem X2_highlight_missing_type_is_newest ext (config context : dict) :
  config !! "type" = None ->
  trace (ProductHighlightPlugin_get_context_data ext config context) =
    [Call_get_newest_products context
       (dict_get config "count" (VInt 4))
       (dict_get config "orderable_only" (VBool true))
       (dict_get config "sale_items_only" (VBool false))].
Proof.
  intros Hty. apply (highlight_trace ext config context NEWEST).
  by rewrite (dict_get_None _ _ _ Hty).
Qed.

Lemma X2_highlight_missing_type_is_newest_witness :
  trace (ProductHighlightPlugin_get_context_data sample_ext
           (<["sale_items_only" := VBool true]> ∅) sample_context) =
    [Call_get_newest_products sample_context (VInt 4) (VBool true) (VBool true)].
Proof.
  exact (X2_highlight_missing_type_is_newest sample_ext
           (<["sale_items_only" := VBool true]> ∅) sample_context eq_refl).
Defined.

(** ** The request and the shape of the returned contexts *)

Lemma bind_Ok_inv {A B} (m : M A) (k : A -> M B) b :
  outcome (bind m k) = Ok b ->
  exists a, outcome m = Ok a /\ outcome (k a) = Ok b.
Proof.
  destruct m as [t [a|e]]; simpl; [|discriminate].
  destruct (k a) as [t' r] eqn:E. simpl. intros ->. exists a.
  by rewrite E.
Qed.

Lemma subscript_Ok_inv (d : dict) key v :
  outcome (subscript d key) = Ok v -> d !! key = Some v.
Proof.
  unfold subscript. destruct (d !! key); simpl; [congruence | discriminate].
Qed.

(** X3: none of the three plugins returns a context for a rendering context
    without a request; whenever one returns, the "request" entry of the
    result is the request of the rendering context. *)
Theorem X3_request_is_handed_on ext table (config context m : dict) :
  outcome (ProductHighlightPlugin_get_context_data ext config context) = Ok m
  \/ outcome (ProductCrossSellsPlugin_get_context_data ext config context) = Ok m
  \/ outcome (ProductsFromCategoryPlugin_get_context_data ext table config context)
     = Ok m ->
  exists request,
    context !! "request" = Some request /\ m !! "request" = Some request.
Proof.
  intros [H | [H | H]].
  - unfold ProductHighlightPlugin_get_context_data in H.
    apply bind_Ok_inv in H as (products & _ & H).
    apply bind_Ok_inv in H as (request & Hreq%subscript_Ok_inv & H).
    injection H as <-. exists request. split; [done | by simplify_map_eq].
  - unfold ProductCrossSellsPlugin_get_context_data in H.
    apply bind_Ok_inv in H as (ty & _ & H).
    apply bind_Ok_inv in H as (request & Hreq%subscript_Ok_inv & H).
    injection H as <-. exists request. split; [done | by simplify_map_eq].
  - unfold ProductsFromCategoryPlugin_get_context_data in H.
    apply bind_Ok_inv in H as (category & _ & H).
    apply bind_Ok_inv in H as (products & _ & H).
    apply bind_Ok_inv in H as (request & Hreq%subscript_Ok_inv & H).
    injection H as <-. exists request. split; [done | by simplify_map_eq].
Qed.

Lemma X3_request_is_handed_on_witness :
  exists request,
    sample_context !! "request" = Some request
    /\ products_context sample_ext (<["type" := VStr "cheapest"]> ∅)
         (VRequest 1) (VList []) !! "request" = Some request.
Proof.
  apply (X3_request_is_handed_on sample_ext sample_table
           (<["type" := VStr "cheapest"]> ∅) sample_context).
  left. reflexivity.
Defined.

(** X4: the highlight plugin and the category plugin, which render through
    the same template, return contexts of the same shape: the keys are
    exactly request, title and products. *)
Theorem X4_highlight_template_context_keys ext table (config context m : dict) :
  outcome (ProductHighlightPlugin_get_context_data ext config context) = Ok m
  \/ outcome (ProductsFromCategoryPlugin_get_context_data ext table config context)
     = Ok m ->
  dom m = ({["request"; "title"; "products"]} : gset string).
Proof.
  intros [H | H].
  - unfold ProductHighlightPlugin_get_context_data in H.
    apply bind_Ok_inv in H as (products & _ & H).
    apply bind_Ok_inv in H as (request & _ & H).
    injection H as <-. rewrite !dom_insert_L, dom_empty_L. set_solver.
  - unfold ProductsFromCategoryPlugin_get_context_data in H.
    apply bind_Ok_inv in H as (category & _ & H).
    apply bind_Ok_inv in H as (products & _ & H).
    apply bind_Ok_inv in H as (request & _ & H).
    injection H as <-. rewrite !dom_insert_L, dom_empty_L. set_solver.
Qed.

Lemma X4_highlight_template_context_keys_witness :
  dom (products_context sample_ext (<["category" := VInt 3]> ∅)
         (VRequest 1) (VList [VProduct 11; VProduct 12]))
    = ({["request"; "title"; "products"]} : gset string).
Proof.
  apply (X4_highlight_template_context_keys sample_ext sample_table
           (<["category" := VInt 3]> ∅) sample_context).
  right. reflexivity.
Defined.

(** ** Failures of the mapping and the calls that are made *)

(** X5: only lookup errors are replaced by the default. When the mapping
    fails on the stored type with an exception that is no LookupError,
    get_context_data raises that exception, and so does the constructor when
    the stored type is true. *)
Theorem X5_other_failures_propagate ext (st : store) (l : loc) (context : dict) e :
  map_relation_type ext (dict_get (deref st l) "type" VNone) = Raise e ->
  is_LookupError e = false ->
  outcome (ProductCrossSellsPlugin_get_context_data ext (deref st l) context)
    = Raise e
  /\ (truthy (dict_get (deref st l) "type" VNone) = true ->
      outcome (ProductCrossSellsPlugin_init ext st l) = Raise e).
Proof.
  intros Hmap He. split.
  - by apply cross_sells_propagates.
  - intros Htr. by apply init_propagates.
Qed.

Lemma X5_other_failures_propagate_witness :
  outcome (ProductCrossSellsPlugin_get_context_data strict_ext
             (deref {[ 1%positive := <["type" := VInt 2]> ∅ ]} 1%positive)
             sample_context)
    = Raise AttributeError
  /\ outcome (ProductCrossSellsPlugin_init strict_ext
                {[ 1%positive := <["type" := VInt 2]> ∅ ]} 1%positive)
     = Raise AttributeError.
Proof.
  destruct (X5_other_failures_propagate strict_ext
              {[ 1%positive := <["type" := VInt 2]> ∅ ]} 1%positive
              sample_context AttributeError) as [Hctx Hinit];
    [reflexivity | reflexivity |].
  split; [exact Hctx | apply Hinit; reflexivity].
Defined.

(** X6: get_context_data calls the mapping exactly once, whatever the
    configuration and the context, with the stored type, which is None when
    the key is absent; the constructor calls it once when the stored type is
    true and not at all otherwise. *)
Theorem X6_mapping_calls ext (st : store) (l : loc) (config context : dict) :
  trace (ProductCrossSellsPlugin_get_context_data ext config context)
    = [Call_map_relation_type (dict_get config "type" VNone)]
  /\ trace (ProductCrossSellsPlugin_init ext st l)
     = if truthy (dict_get (deref st l) "type" VNone)
       then [Call_map_relation_type (dict_get (deref st l) "type" VNone)]
       else [].
Proof.
  split.
  - unfold ProductCrossSellsPlugin_get_context_data, resolve_relation_type,
      try_except_LookupError, subscript, emit, bind, ret, raise, trace.
    repeat case_match; simplify_eq; reflexivity.
  - unfold ProductCrossSellsPlugin_init, resolve_relation_type,
      try_except_LookupError, emit, bind, ret, trace.
    repeat case_match; simplify_eq; reflexivity.
Qed.

(** X7: one rendering makes at most one product query: the highlight and
    the category plugin at most one each, the cross-sell plugin none. *)
Theorem X7_at_most_one_product_query ext table (config context : dict) :
  (length (product_queries
     (trace (ProductHighlightPlugin_get_context_data ext config context))) <= 1)%nat
  /\ (length (product_queries
        (trace (ProductsFromCategoryPlugin_get_context_data ext table config context)))
      <= 1)%nat
  /\ product_queries
       (trace (ProductCrossSellsPlugin_get_context_data ext config context)) = [].
Proof.
  split; [|split].
  - unfold ProductHighlightPlugin_get_context_data, subscript, emit, bind, ret,
      raise, trace.
    repeat case_match; simplify_eq; simpl; lia.
  - unfold ProductsFromCategoryPlugin_get_context_data, Category_objects_filter_id,
      subscript, emit, bind, ret, raise, trace.
    repeat case_match; simplify_eq; simpl; lia.
  - unfold ProductCrossSellsPlugin_get_context_data, resolve_relation_type,
      try_except_LookupError, subscript, emit, bind, ret, raise, trace.
    repeat case_match; simplify_eq; reflexivity.
Qed.

(** ** The keys of the caller's dictionary *)

Lemma truthy_get_present (d : dict) key :
  truthy (dict_get d key VNone) = true -> key ∈ dom d.
Proof.
  unfold dict_get. intros H. apply elem_of_dom.
  destruct (d !! key); [done | discriminate].
Qed.

(** X8: the constructor never adds or removes a key of the dictionary it was
    handed: when it returns, that dictionary has the keys it had before, and
    every entry other than "type" has the value it had. *)
Theorem X8_init_keeps_keys ext (st st' : store) (l : loc) (p : Plugin) :
  outcome (ProductCrossSellsPlugin_init ext st l) = Ok (st', p) ->
  dom (deref st' l) = dom (deref st l)
  /\ forall key, key <> "type" -> deref st' l !! key = deref st l !! key.
Proof.
  unfold ProductCrossSellsPlugin_init.
  destruct (truthy (dict_get (deref st l) "type" VNone)) eqn:Htr.
  - intros H. apply bind_Ok_inv in H as (st1 & H1 & [= <- <-]).
    apply bind_Ok_inv in H1 as (ty & _ & [= <-]).
    rewrite deref_setitem_same. split.
    + rewrite dom_insert_L. apply subseteq_union_1_L, singleton_subseteq_l.
      by apply truthy_get_present.
    + intros key Hkey. by rewrite lookup_insert_ne.
  - simpl. intros [= <- <-]. done.
Qed.

Lemma X8_init_keeps_keys_witness :
  dom (deref (setitem {[ 1%positive := <["type" := VStr "upsell"]> ∅ ]} 1%positive
                "type" (VRelationType RELATED)) 1%positive)
    = dom (deref {[ 1%positive := <["type" := VStr "upsell"]> ∅ ]} 1%positive)
  /\ forall key, key <> "type" ->
       deref (setitem {[ 1%positive := <["type" := VStr "upsell"]> ∅ ]} 1%positive
                "type" (VRelationType RELATED)) 1%positive !! key
       = deref {[ 1%positive := <["type" := VStr "upsell"]> ∅ ]} 1%positive !! key.
Proof.
  apply (X8_init_keeps_keys sample_ext
           {[ 1%positive := <["type" := VStr "upsell"]> ∅ ]} _ 1%positive
           (mkPlugin 1%positive)).
  reflexivity.
Defined.

(** ** What [clean] stores and how it is rendered *)

Lemma getattr_pk_stored v pk :
  getattr_pk v = Some pk -> exists z, pk = VInt z.
Proof. destruct v; simpl; intros [= <-]; eauto. Qed.

Lemma clean_category (d : dict) :
  ProductsFromCategoryForm_clean d !! "category" =
    Some (default VNone (getattr_pk (dict_get d "category" VNone))).
Proof.
  unfold ProductsFromCategoryForm_clean. rewrite lookup_insert_eq.
  by destruct (getattr_pk _).
Qed.

(** X9: [clean] always leaves a "category" entry, and the entry is None or
    an integer, whatever was submitted; the keys are those of the cleaned
    data and "category". *)
Theorem X9_clean_stores_identifier (cleaned_data : dict) :
  (exists v,
     ProductsFromCategoryForm_clean cleaned_data !! "category" = Some v
     /\ is_stored_identifier v = true)
  /\ dom (ProductsFromCategoryForm_clean cleaned_data)
     = {["category"]} ∪ dom cleaned_data.
Proof.
  split.
  - eexists. split; [apply clean_category|].
    destruct (getattr_pk _) as [pk|] eqn:E; [|done].
    by destruct (getattr_pk_stored _ _ E) as [z ->].
  - unfold ProductsFromCategoryForm_clean. apply dom_insert_L.
Qed.

(** X10: [clean] expects the selected object, not an identifier: applied to
    data it has cleaned already, it replaces the stored identifier by
    None. *)
Theorem X10_clean_twice_drops_category (cleaned_data : dict) :
  ProductsFromCategoryForm_clean (ProductsFromCategoryForm_clean cleaned_data)
    !! "category" = Some VNone.
Proof.
  rewrite clean_category.
  rewrite (dict_get_Some _ _ _ _ (clean_category cleaned_data)).
  destruct (getattr_pk (dict_get cleaned_data "category" VNone)) as [pk|] eqn:E;
    [|done].
  by destruct (getattr_pk_stored _ _ E) as [z ->].
Qed.

Lemma clean_get_other (d : dict) key dflt :
  key <> "category" ->
  dict_get (ProductsFromCategoryForm_clean d) key dflt = dict_get d key dflt.
Proof.
  intros Hkey. unfold dict_get, ProductsFromCategoryForm_clean.
  by rewrite lookup_insert_ne.
Qed.

(** X11: what [clean] stores is what the plugin looks up. When the selected
    category is the row of the table with its primary key, and the key is
    not 0, the plugin rendered with the cleaned data as configuration asks
    the category-products helper for exactly that category, with the count
    and filters of the cleaned data. *)
Theorem X11_clean_then_render ext table (cleaned_data context : dict) c request :
  cleaned_data !! "category" = Some (VCategory c) ->
  cat_id c <> 0 ->
  List.find (fun r => cat_id r =? cat_id c) table = Some c ->
  context !! "request" = Some request ->
  let config := ProductsFromCategoryForm_clean cleaned_data in
  let count := dict_get cleaned_data "count" VNone in
  let orderable_only := dict_get cleaned_data "orderable_only" (VBool true) in
  let sale_items_only := dict_get cleaned_data "sale_items_only" (VBool false) in
  ProductsFromCategoryPlugin_get_context_data ext table config context =
    ([Call_Category_filter_id (VInt (cat_id c));
      Call_get_products_for_categories
        context [c] count orderable_only sale_items_only],
     match get_products_for_categories ext
             context [c] count orderable_only sale_items_only with
     | Ok products => Ok (products_context ext config request products)
     | Raise e => Raise e
     end).
Proof.
  intros Hcat Hz Hfind Hreq. simpl.
  assert (ProductsFromCategoryForm_clean cleaned_data !! "category"
          = Some (VInt (cat_id c))) as Hstored.
  { rewrite clean_category, (dict_get_Some _ _ _ _ Hcat). reflexivity. }
  rewrite (category_products_by_id ext table _ _ _ _ Hstored Hz Hreq), Hfind.
  rewrite !clean_get_other by done. reflexivity.
Qed.

Lemma X11_clean_then_render_witness :
  ProductsFromCategoryPlugin_get_context_data sample_ext sample_table
    (ProductsFromCategoryForm_clean
       (<["category" := VCategory (mkCategory 3 false [1])]>
          (<["count" := VInt 1]> ∅)))
    sample_context =
    ([Call_Category_filter_id (VInt 3);
      Call_get_products_for_categories sample_context [mkCategory 3 false [1]]
        (VInt 1) (VBool true) (VBool false)],
     Ok (products_context sample_ext
           (ProductsFromCategoryForm_clean
              (<["category" := VCategory (mkCategory 3 false [1])]>
                 (<["count" := VInt 1]> ∅)))
           (VRequest 1) (VList [VProduct 11]))).
Proof.
  assert (cat_id (mkCategory 3 false [1]) <> 0) as Hkey by (simpl; lia).
  exact (X11_clean_then_render sample_ext sample_table
           (<["category" := VCategory (mkCategory 3 false [1])]>
              (<["count" := VInt 1]> ∅))
           sample_context (mkCategory 3 false [1]) (VRequest 1)
           eq_refl Hkey eq_refl eq_refl).
Defined.

(** X12: a primary key 0 is stored by [clean] but is false at render time:
    the plugin makes no lookup and no query and returns an empty product
    list, also when the table holds the category. *)
Theorem X12_primary_key_zero_not_rendered
    ext table (cleaned_data context : dict) c request :
  cleaned_data !! "category" = Some (VCategory c) ->
  cat_id c = 0 ->
  context !! "request" = Some request ->
  ProductsFromCategoryForm_clean cleaned_data !! "category" = Some (VInt 0)
  /\ ProductsFromCategoryPlugin_get_context_data ext table
       (ProductsFromCategoryForm_clean cleaned_data) context =
     ([], Ok (products_context ext (ProductsFromCategoryForm_clean cleaned_data)
                request (VList []))).
Proof.
  intros Hcat Hz Hreq.
  assert (ProductsFromCategoryForm_clean cleaned_data !! "category"
          = Some (VInt 0)) as Hstored.
  { rewrite clean_category, (dict_get_Some _ _ _ _ Hcat). simpl. by rewrite Hz. }
  split; [done|].
  apply category_products_falsy; [|done].
  by rewrite (dict_get_Some _ _ _ _ Hstored).
Qed.

Lemma X12_primary_key_zero_not_rendered_witness :
  ProductsFromCategoryPlugin_get_context_data sample_ext
    [mkCategory 0 false [1]]
    (ProductsFromCategoryForm_clean
       (<["category" := VCategory (mkCategory 0 false [1])]> ∅))
    sample_context =
    ([], Ok (products_context sample_ext
               (ProductsFromCategoryForm_clean
                  (<["category" := VCategory (mkCategory 0 false [1])]> ∅))
               (VRequest 1) (VList []))).
Proof.
  exact (proj2 (X12_primary_key_zero_not_rendered sample_ext
                  [mkCategory 0 false [1]]
                  (<["category" := VCategory (mkCategory 0 false [1])]> ∅)
                  sample_context (mkCategory 0 false [1]) (VRequest 1)
                  eq_refl eq_refl eq_refl)).
Defined.

(** ** The fields the category form declares *)

Lemma fields_lookup_setitem_same fields name f :
  fields_lookup (fields_setitem fields name f) name = Some f.
Proof.
  induction fields as [|[n g] rest IH]; simpl.
  - by rewrite String.eqb_refl.
  - destruct (String.eqb n name) eqn:E; simpl; by rewrite E.
Qed.





Lemma category_field_of_form
    table request_shop (plugin_fields : list FieldEntry) (plugin_config : dict) :
  fields_lookup
    (ProductsFromCategoryForm_populate table request_shop plugin_fields plugin_config)
    "category"
  = Some (XThemeModelChoiceField (all_except_deleted table request_shop) false
            (dict_get plugin_config "category" VNone)).
Proof.
  unfold ProductsFromCategoryForm_populate. apply fields_lookup_setitem_same.
Qed.

(** X13: whatever the plugin's field list declares, a "category" tuple
    included, the form's "category" field is the category chooser: not
    required, offering the categories of the request's shop that are not
    deleted, with the stored category as initial value. *)
Theorem X13_populate_category_field
    table request_shop (plugin_fields : list FieldEntry) (plugin_config : dict) :
  fields_lookup
    (ProductsFromCategoryForm_populate table request_shop plugin_fields plugin_config)
    "category"
  = Some (XThemeModelChoiceField (all_except_deleted table request_shop) false
            (dict_get plugin_config "category" VNone)).
Proof.
  unfold ProductsFromCategoryForm_populate. apply fields_lookup_setitem_same.
Qed.



(** ** From the accepted form to the rendering *)

Section AcceptedCategory.

Variable int_of_string : string -> option Z.
Variable other_to_python : Field -> value -> option value.

(** The accepted data hold, under the name of a declared field, what the
    field made of the submitted value. *)
Lemma clean_fields_lookup fields data cleaned name f :
  clean_fields int_of_string other_to_python fields data = Some cleaned ->
  fields_lookup fields name = Some f ->
  exists v,
    Field_clean int_of_string other_to_python f (dict_get data name VNone) = Some v
    /\ cleaned !! name = Some v.
Proof.
  revert cleaned. induction fields as [|[n g] rest IH]; intros cleaned; simpl;
    [discriminate|].
  destruct (Field_clean _ _ g _) as [v|] eqn:Hg; [|discriminate].
  destruct (clean_fields _ _ rest data) as [cleaned'|] eqn:Hrest; [|discriminate].
  intros [= <-]. destruct (String.eqb n name) eqn:E.
  - apply String.eqb_eq in E as ->. intros [= <-].
    exists v. by rewrite lookup_insert_eq.
  - apply String.eqb_neq in E. intros Hf.
    destruct (IH cleaned' eq_refl Hf) as (w & Hw & Hl).
    exists w. by rewrite lookup_insert_ne.
Qed.

(** The category chooser yields None or a category of its queryset. *)
Lemma chooser_clean queryset initial raw v :
  Field_clean int_of_string other_to_python
    (XThemeModelChoiceField queryset false initial) raw = Some v ->
  v = VNone \/ exists c, In c queryset /\ v = VCategory c.
Proof.
  unfold Field_clean, Field_to_python.
  destruct (is_empty_value raw); simpl; [intros [= <-]; by left|].
  destruct (match raw with
            | VInt z => Some z
            | VStr s => int_of_string s
            | _ => None
            end) as [z|]; [|discriminate].
  destruct (List.find _ queryset) as [c|] eqn:Hfind; simpl; [|discriminate].
  intros [= <-]. right. exists c. split; [|done].
  by apply List.find_some in Hfind as [? _].
Qed.

Lemma all_except_deleted_In table shop c :
  In c (all_except_deleted table shop) ->
  In c table /\ cat_deleted c = false /\ In shop (cat_shops c).
Proof.
  unfold all_except_deleted. intros [Hin Hc]%List.filter_In.
  apply andb_true_iff in Hc as [Hdel Hshop]. split; [done|]. split.
  - by apply negb_true_iff.
  - apply List.existsb_exists in Hshop as (s & Hs & ->%Z.eqb_eq). done.
Qed.

(** What the category form stores under "category". *)
Lemma category_form_stored table request_shop plugin_fields
    (plugin_config data config : dict) :
  ProductsFromCategoryForm_config int_of_string other_to_python
    table request_shop plugin_fields plugin_config data = Some config ->
  config !! "category" = Some VNone
  \/ exists c,
       In c table /\ cat_deleted c = false /\ In request_shop (cat_shops c)
       /\ config !! "category" = Some (VInt (cat_id c)).
Proof.
  unfold ProductsFromCategoryForm_config.
  destruct (clean_fields _ _ _ data) as [cleaned|] eqn:Hcl; [|discriminate].
  simpl. intros [= <-].
  destruct (clean_fields_lookup _ _ _ "category" _ Hcl
              (category_field_of_form table request_shop
                 plugin_fields plugin_config)) as (v & Hv & Hl).
  rewrite clean_category, (dict_get_Some _ _ _ _ Hl).
  destruct (chooser_clean _ _ _ _ Hv) as [-> | (c & Hc & ->)]; [by left|].
  right. exists c. apply all_except_deleted_In in Hc as (? & ? & ?). done.
Qed.

End AcceptedCategory.

Lemma find_category_with_id table c0 :
  In c0 table ->
  exists c,
    List.find (fun r => cat_id r =? cat_id c0) table = Some c
    /\ In c table /\ cat_id c = cat_id c0.
Proof.
  intros Hin. destruct (List.find _ table) as [c|] eqn:Hfind.
  - exists c. split; [done|].
    apply List.find_some in Hfind as [? ?%Z.eqb_eq]. done.
  - apply (List.find_none _ _ Hfind) in Hin. by rewrite Z.eqb_refl in Hin.
Qed.

(** X15: the category form stores, under "category", None or the primary key
    of a category of the table that is not deleted and belongs to the
    request's shop; no submitted value makes it store anything else. Field
    validation is the form framework's, as modelled above. *)
Theorem X15_form_stores_selectable_category
    (int_of_string : string -> option Z)
    (other_to_python : Field -> value -> option value)
    table request_shop (plugin_fields : list FieldEntry)
    (plugin_config data config : dict) :
  ProductsFromCategoryForm_config int_of_string other_to_python
    table request_shop plugin_fields plugin_config data = Some config ->
  config !! "category" = Some VNone
  \/ exists c,
       In c table /\ cat_deleted c = false /\ In request_shop (cat_shops c)
       /\ config !! "category" = Some (VInt (cat_id c)).
Proof. apply category_form_stored. Qed.

Lemma X15_form_stores_selectable_category_witness :
  exists config,
    ProductsFromCategoryForm_config sample_int_of_string sample_other_to_python
      sample_table 1 ProductsFromCategoryPlugin_fields ∅
      (<["category" := VInt 3]> (<["count" := VStr "4"]> ∅)) = Some config
    /\ (config !! "category" = Some VNone
        \/ exists c,
             In c sample_table /\ cat_deleted c = false /\ In 1 (cat_shops c)
             /\ config !! "category" = Some (VInt (cat_id c))).
Proof.
  eexists. split; [vm_compute; reflexivity|].
  apply (X15_form_stores_selectable_category
           sample_int_of_string sample_other_to_python
           sample_table 1 ProductsFromCategoryPlugin_fields ∅
           (<["category" := VInt 3]> (<["count" := VStr "4"]> ∅))).
  vm_compute. reflexivity.
Defined.

(** X16: a configuration that the category form accepted is rendered against
    the same table without a miss: when it stores a category with a key
    other than 0, the lookup finds a category with that key and the plugin
    asks the category-products helper for it, with the accepted count, an
    integer of at least 1, as n_products. *)
Theorem X16_accepted_configuration_renders
    (int_of_string : string -> option Z)
    (other_to_python : Field -> value -> option value)
    ext table request_shop (plugin_config data config context : dict) z :
  ProductsFromCategoryForm_config int_of_string other_to_python
    table request_shop ProductsFromCategoryPlugin_fields plugin_config data
    = Some config ->
  config !! "category" = Some (VInt z) ->
  z <> 0 ->
  rendering_context context ->
  exists c n,
    In c table /\ cat_id c = z /\ 1 <= n
    /\ trace (ProductsFromCategoryPlugin_get_context_data ext table config context)
       = [Call_Category_filter_id (VInt z);
          Call_get_products_for_categories context [c] (VInt n)
            (dict_get config "orderable_only" (VBool true))
            (dict_get config "sale_items_only" (VBool false))].
Proof.
  intros Hacc Hcat Hz [request Hreq].
  destruct (category_form_stored _ _ _ _ _ _ _ _ Hacc)
    as [Hnone | (c0 & Hin & _ & _ & Hc0)]; [congruence|].
  assert (cat_id c0 = z) as Hid by congruence.
  destruct (find_category_with_id table c0 Hin) as (c & Hfind & Hc & Hcid).
  rewrite Hid in Hfind, Hcid.
  assert (exists n, config !! "count" = Some (VInt n) /\ 1 <= n) as (n & Hn & Hle).
  { unfold ProductsFromCategoryForm_config in Hacc.
    destruct (clean_fields _ _ _ data) as [cleaned|] eqn:Hcl; [|discriminate].
    simpl in Hacc. injection Hacc as <-.
    assert (exists n, cleaned !! "count" = Some (VInt n) /\ 1 <= n)
      as (n & Hn & Hle).
    { eapply clean_fields_min; [| |exact Hcl].
      - intros f Hf%category_form_count_fields. eauto.
      - eexists. by apply category_form_count_fields. }
    exists n. split; [|done].
    unfold ProductsFromCategoryForm_clean. by rewrite lookup_insert_ne. }
  exists c, n. split; [done|]. split; [done|]. split; [done|].
  rewrite (category_products_by_id ext table _ _ _ _ Hcat Hz Hreq), Hfind.
  simpl. by rewrite (dict_get_Some _ _ _ _ Hn).
Qed.

Lemma X16_accepted_configuration_renders_witness :
  exists c n,
    In c sample_table /\ cat_id c = 3 /\ 1 <= n
    /\ trace (ProductsFromCategoryPlugin_get_context_data sample_ext sample_table
                (<["category" := VInt 3]>
                 (<["title" := VNone]>
                 (<["count" := VInt 4]>
                 (<["sale_items_only" := VBool false]>
                 (<["orderable_only" := VBool false]> ∅)))))
                sample_context)
       = [Call_Category_filter_id (VInt 3);
          Call_get_products_for_categories sample_context [c] (VInt n)
            (dict_get (<["category" := VInt 3]>
                       (<["title" := VNone]>
                       (<["count" := VInt 4]>
                       (<["sale_items_only" := VBool false]>
                       (<["orderable_only" := VBool false]> ∅)))))
               "orderable_only" (VBool true))
            (dict_get (<["category" := VInt 3]>
                       (<["title" := VNone]>
                       (<["count" := VInt 4]>
                       (<["sale_items_only" := VBool false]>
                       (<["orderable_only" := VBool false]> ∅)))))
               "sale_items_only" (VBool false))].
Proof.
  apply (X16_accepted_configuration_renders
           sample_int_of_string sample_other_to_python
           sample_ext sample_table 1 ∅
           (<["category" := VInt 3]> (<["count" := VStr "4"]> ∅))).
  - vm_compute. reflexivity.
  - reflexivity.
  - lia.
  - exact sample_context_rendering.
Defined.
